(** * PayPal webhook relay: the handler of [pg.js] and its template cache

    The development embeds the most defensive variant of the handler, the
    second module of [src/pg.js] ([getEmailTemplate] and
    [paypalWebhookHandler], with the cached template), and settles the
    properties of the specification on it.

    - [JS]      : the JavaScript values the handler inspects (decoded JSON,
                  [undefined]), truthiness, property reads, optional chains,
                  [ToString].
    - [Subst]   : [String.prototype.replace] with a global literal pattern
                  and a string replacement, as used for the two markers.
    - [Webhook] : the effects (template cache, network, console, process
                  environment) as a state-and-exception monad, and the
                  handler itself.
    - [Superseded] : the older copies of the handler kept in the
                  repository.
    - [Lambda]  : the AWS Lambda entry point around the handler.
    - [Observe] : vocabulary for what a request does.
    - [Scenario] : the requests and collaborators of the scenarios of the
                  specification. *)

From Stdlib Require Import String Ascii List ZArith Bool Lia.
From Stdlib Require Import Numbers.DecimalString.
Import ListNotations.

Local Open Scope string_scope.

(* ===================================================================== *)
(** ** JavaScript values                                                  *)
(* ===================================================================== *)

Module JS.

(** A request body is either a string still to be decoded or a value the
    hosting platform has decoded already; [JSON.parse] produces the same
    kind of value.  A number is carried by its canonical rendering
    ([Number::toString]): the handler only ever tests a number for
    truthiness and converts it to a string, and both are functions of that
    rendering (the two zeros both render as ["0"]). *)
#[warnings="-register-all"]
Inductive value : Type :=
| Undefined
| Null
| Bool (b : bool)
| Num (repr : string)
| Str (s : string)
| Arr (items : list value)
| Obj (props : list (string * value)).

(** [ToBoolean]. *)
Definition truthy (v : value) : bool :=
  match v with
  | Undefined | Null => false
  | Bool b => b
  | Num r => negb (r =? "0") && negb (r =? "NaN")
  | Str s => negb (s =? "")
  | Arr _ | Obj _ => true
  end.

(** The values on which [?.] short-circuits and on which a plain property
    read throws a [TypeError]. *)
Definition nullish (v : value) : bool :=
  match v with
  | Undefined | Null => true
  | _ => false
  end.

(** [v !== "literal"]. *)
Definition strict_neq_str (v : value) (lit : string) : bool :=
  match v with
  | Str s => negb (s =? lit)
  | _ => true
  end.

(** An object is the list of its own properties; the first binding of a key
    is the property. *)
Fixpoint own (k : string) (props : list (string * value)) : value :=
  match props with
  | [] => Undefined
  | (k', v) :: rest => if k' =? k then v else own k rest
  end.

(** [v.k] on a value that is neither [null] nor [undefined], for the
    property names the handler and its wrapper read ([event_type],
    [resource], [payer], [email_address], [purchase_units], [items],
    [name], [id], [httpMethod], [body]): none of them is a built-in
    property of a string, a number, a boolean or an array. *)
Definition member (v : value) (k : string) : value :=
  match v with
  | Obj props => own k props
  | _ => Undefined
  end.

(** [v[0]] on a value that is neither [null] nor [undefined]. *)
Definition item0 (v : value) : value :=
  match v with
  | Arr (x :: _) => x
  | Str (String c _) => Str (String c "")
  | Obj props => own "0" props
  | _ => Undefined
  end.

Inductive segment : Type :=
| Member (k : string)
| Item0.

Definition read (v : value) (seg : segment) : value :=
  match seg with
  | Member k => member v k
  | Item0 => item0 v
  end.

(** One link [v?.k] or [v?.[0]] of an optional chain. *)
Definition opt_read (v : value) (seg : segment) : value :=
  if nullish v then Undefined else read v seg.

(** [v?.s1?.s2 ... ?.sn]. *)
Definition opt_chain (v : value) (path : list segment) : value :=
  fold_left opt_read path v.

(** [a || b]. *)
Definition or_else (a b : value) : value :=
  if truthy a then a else b.

(** The object has an own property named [k], whatever its value. *)
Fixpoint has_own (k : string) (props : list (string * value)) : bool :=
  match props with
  | [] => false
  | (k', _) :: rest => (k' =? k) || has_own k rest
  end.

(** [ToString]; [None] when it throws a [TypeError].  An object goes
    through [toString] and [valueOf]: without an own [toString] it
    inherits the one that yields ["[object Object]"]; with one (in decoded
    JSON it is never a function) neither step yields a primitive and the
    conversion throws.  An array joins its elements with commas, an absent
    or null element contributing the empty string, the others being
    converted in turn. *)
Fixpoint to_string (v : value) : option string :=
  match v with
  | Undefined => Some "undefined"
  | Null => Some "null"
  | Bool true => Some "true"
  | Bool false => Some "false"
  | Num r => Some r
  | Str s => Some s
  | Arr items =>
      (fix join (l : list value) : option string :=
         match l with
         | [] => Some ""
         | x :: rest =>
             match (if nullish x then Some "" else to_string x) with
             | None => None
             | Some here =>
                 match rest with
                 | [] => Some here
                 | _ :: _ =>
                     match join rest with
                     | None => None
                     | Some others => Some (here ++ "," ++ others)
                     end
                 end
             end
         end) items
  | Obj props => if has_own "toString" props then None else Some "[object Object]"
  end.

End JS.

(* ===================================================================== *)
(** ** Marker substitution                                                *)
(* ===================================================================== *)

Module Subst.

Fixpoint drop (n : nat) (s : string) : string :=
  match n, s with
  | O, _ => s
  | S _, "" => ""
  | S k, String _ s' => drop k s'
  end.

(** [GetSubstitution] of ECMAScript for a pattern without capture groups:
    in the replacement text [$$] stands for a dollar sign, [$&] for the
    matched text, [$`] for the part of the subject before the match and
    [$'] for the part after it; any other [$] is literal (with no groups,
    [$1] ... [$99] and [$<] are left as they are). *)
Fixpoint GetSubstitution (matched before after template : string) : string :=
  match template with
  | "" => ""
  | String c rest =>
      if Ascii.eqb c "$" then
        match rest with
        | String d rest' =>
            if Ascii.eqb d "$" then String "$" (GetSubstitution matched before after rest')
            else if Ascii.eqb d "&" then matched ++ GetSubstitution matched before after rest'
            else if Ascii.eqb d "`" then before ++ GetSubstitution matched before after rest'
            else if Ascii.eqb d "'" then after ++ GetSubstitution matched before after rest'
            else String c (GetSubstitution matched before after rest)
        | "" => String c ""
        end
      else String c (GetSubstitution matched before after rest)
  end.

(** [subject.replace(/marker/g, replacement)] for a literal, non-empty
    [marker] and a string [replacement].  The scan runs over the subject
    from left to right; [before] is the part of the subject already passed
    and [skip] the number of code units of the current match still to be
    passed over (the pattern's [lastIndex] lies beyond them), so matches
    never overlap and replaced text is not scanned again. *)
Fixpoint replace_scan (marker replacement before : string) (skip : nat)
         (s : string) : string :=
  match s with
  | "" => ""
  | String c s' =>
      match skip with
      | S k => replace_scan marker replacement (before ++ String c "") k s'
      | O =>
          if prefix marker s then
            GetSubstitution marker before (drop (String.length marker) s) replacement
            ++ replace_scan marker replacement (before ++ String c "")
                 (String.length marker - 1) s'
          else
            String c (replace_scan marker replacement (before ++ String c "") 0 s')
      end
  end.

Definition replace_global (marker replacement subject : string) : string :=
  replace_scan marker replacement "" 0 subject.

Definition itemName_marker : string := "{{itemName}}".
Definition buyerEmail_marker : string := "{{buyerEmail}}".

(** The two replacements in a row, for replacement values that are
    strings. *)
Definition render (emailTemplate itemText emailText : string) : string :=
  replace_global buyerEmail_marker emailText
    (replace_global itemName_marker itemText emailTemplate).

(** [emailTemplate.replace(/{{itemName}}/g, itemName)
                  .replace(/{{buyerEmail}}/g, buyerEmail)].  Each [replace]
    first converts its replacement value with [ToString], whether or not
    the pattern matches; [None] when one of the conversions throws. *)
Definition personalize (emailTemplate : string) (itemName buyerEmail : JS.value)
  : option string :=
  match JS.to_string itemName with
  | None => None
  | Some itemText =>
      match JS.to_string buyerEmail with
      | None => None
      | Some emailText => Some (render emailTemplate itemText emailText)
      end
  end.

(** *** Vocabulary for stating what the substitution does *)

(** [m] occurs somewhere in [s]. *)
Fixpoint occurs (m s : string) : bool :=
  prefix m s
  || match s with
     | "" => false
     | String _ s' => occurs m s'
     end.

(** The character [c] does not appear in [s]. *)
Fixpoint free_of (c : ascii) (s : string) : bool :=
  match s with
  | "" => true
  | String d s' => negb (Ascii.eqb d c) && free_of c s'
  end.

(** The replacement text holds none of the patterns [$$], [$&], [$`],
    [$']: every dollar sign in it is followed by another character than
    these four, or by nothing. *)
Fixpoint pattern_free (s : string) : bool :=
  match s with
  | "" => true
  | String c rest =>
      (if Ascii.eqb c "$" then
         match rest with
         | String d _ =>
             negb (Ascii.eqb d "$" || Ascii.eqb d "&"
                   || Ascii.eqb d "`" || Ascii.eqb d "'")
         | "" => true
         end
       else true)
      && pattern_free rest
  end.

(** No proper, non-empty suffix of [m] is the beginning of [w]: an
    occurrence of [m] cannot start before an occurrence of [w] and run
    into it.  With [w = m] this says that two occurrences of [m] never
    overlap. *)
Definition no_suffix_starts (m w : string) : bool :=
  forallb (fun k => negb (prefix (drop k m) w)) (seq 1 (String.length m - 1)).

(** A template written as literal text interleaved with the two markers. *)
Inductive piece : Type :=
| Literal (s : string)
| ItemName
| BuyerEmail.

Fixpoint assemble (itemName buyerEmail : string) (ps : list piece) : string :=
  match ps with
  | [] => ""
  | Literal s :: rest => s ++ assemble itemName buyerEmail rest
  | ItemName :: rest => itemName ++ assemble itemName buyerEmail rest
  | BuyerEmail :: rest => buyerEmail ++ assemble itemName buyerEmail rest
  end.

(** The template text: each marker piece is the marker itself. *)
Definition template_of (ps : list piece) : string :=
  assemble itemName_marker buyerEmail_marker ps.

(** All the literal text of the template is free of [c]. *)
Definition literals_free_of (c : ascii) (ps : list piece) : bool :=
  forallb (fun p => match p with Literal s => free_of c s | _ => true end) ps.


End Subst.

(* ===================================================================== *)
(** ** The handler and its effects                                        *)
(* ===================================================================== *)

Module Webhook.

Import JS.

Definition Z_to_string (z : Z) : string :=
  NilEmpty.string_of_int (Z.to_int z).

(** *** What the handler exchanges with the outside *)

(** The object serialised into the body of the call to the email provider. *)
Record email : Type := Email {
  from : string;
  to : value;
  subject : string;
  html : string
}.

(** A call of [fetch]: the plain GET of the template, or the POST to the
    email provider with its [Authorization] header and JSON body. *)
Inductive request : Type :=
| GET (url : string)
| POST (url : string) (authorization : string) (body : email).

(** What a resolved [fetch] yields: the status line and the body; [None]
    stands for a body whose reading ([text()], [json()]) rejects. *)
Record http_response : Type := HttpResponse {
  status : Z;
  content : option string
}.

(** [response.ok]: the status lies in 200..299. *)
Definition ok (r : http_response) : bool :=
  (200 <=? status r)%Z && (status r <? 300)%Z.

(** A [fetch] either rejects (transport failure) or resolves. *)
Inductive fetch_result : Type :=
| Rejected
| Resolved (r : http_response).

Inductive exn : Type :=
| FetchError                 (* rejection of [fetch], [text()] or [json()] *)
| Error (message : string)   (* [new Error(message)] *)
| SyntaxError                (* [JSON.parse] or [json()] on malformed text *)
| TypeError.                 (* property read on [null] or [undefined] *)

Inductive logged : Type :=
| Text (s : string)
| Thrown (e : exn).

(** The observable actions, in the order they happen. *)
Inductive event : Type :=
| Fetch (rq : request)
| ConsoleError (args : list logged).

(** The process: the module-level [cachedEmailTemplate] ([None] is [null]),
    the environment variable [RESEND_API_KEY] ([None] is [undefined]) and
    the trace of what has been done so far. *)
Record state : Type := State {
  cachedEmailTemplate : option string;
  RESEND_API_KEY : option string;
  trace : list event
}.

(** The state of a process that has just loaded the module. *)
Definition fresh (key : option string) : state :=
  State None key [].

Definition is_fetch (e : event) : bool :=
  match e with Fetch _ => true | ConsoleError _ => false end.

Definition is_template_fetch (e : event) : bool :=
  match e with Fetch (GET _) => true | _ => false end.

Definition is_dispatch (e : event) : bool :=
  match e with Fetch (POST _ _ _) => true | _ => false end.

(** Number of network calls, of template fetches and of dispatches made. *)
Definition network_calls (st : state) : nat :=
  List.length (filter is_fetch (trace st)).

Definition template_fetches (st : state) : nat :=
  List.length (filter is_template_fetch (trace st)).

Definition dispatches (st : state) : nat :=
  List.length (filter is_dispatch (trace st)).

(** *** Computations: state passing with exceptions *)

Inductive outcome (A : Type) : Type :=
| Return (a : A)
| Throw (e : exn).
Arguments Return {A} a.
Arguments Throw {A} e.

Definition M (A : Type) : Type := state -> outcome A * state.

Definition ret {A} (a : A) : M A := fun st => (Return a, st).

Definition throw {A} (e : exn) : M A := fun st => (Throw e, st).

Definition bind {A B} (c : M A) (k : A -> M B) : M B :=
  fun st =>
    match c st with
    | (Return a, st') => k a st'
    | (Throw e, st') => (Throw e, st')
    end.

(** [try { c } catch (e) { handler e }]. *)
Definition try_catch {A} (c : M A) (handler : exn -> M A) : M A :=
  fun st =>
    match c st with
    | (Return a, st') => (Return a, st')
    | (Throw e, st') => handler e st'
    end.

Declare Scope js_scope.
Delimit Scope js_scope with js.
Notation "x <- c ;; k" := (bind c (fun x => k))
  (at level 61, c at next level, right associativity) : js_scope.
Notation "c ;; k" := (bind c (fun _ => k))
  (at level 61, right associativity) : js_scope.
Local Open Scope js_scope.

(** The state once [e] has happened. *)
Definition after (st : state) (e : event) : state :=
  State (cachedEmailTemplate st) (RESEND_API_KEY st) (trace st ++ [e]).

Definition record (e : event) : M unit :=
  fun st => (Return tt, after st e).

Definition console_error (args : list logged) : M unit :=
  record (ConsoleError args).

Definition read_cache : M (option string) :=
  fun st => (Return (cachedEmailTemplate st), st).

Definition write_cache (t : string) : M unit :=
  fun st => (Return tt, State (Some t) (RESEND_API_KEY st) (trace st)).

Definition read_env_key : M (option string) :=
  fun st => (Return (RESEND_API_KEY st), st).

(** [v.k], throwing on [null] and [undefined]. *)
Definition get (v : value) (k : string) : M value :=
  if nullish v then throw TypeError else ret (member v k).

(** [ToString(v)], as in a template literal. *)
Definition ToString (v : value) : M string :=
  match to_string v with
  | Some s => ret s
  | None => throw TypeError
  end.

(** [response.text()]. *)
Definition text (r : http_response) : M string :=
  match content r with
  | Some s => ret s
  | None => throw FetchError
  end.

Section Handler.

(** The two things the handler takes from its runtime: [JSON.parse]
    ([None] when it throws) and the behaviour of the network, which may
    depend on everything that happened before the call. *)
Variable JSON_parse : string -> option value.
Variable network : list event -> request -> fetch_result.

(** [await fetch(...)]. *)
Definition fetch (rq : request) : M http_response :=
  fun st =>
    match network (trace st) rq with
    | Rejected => (Throw FetchError, after st (Fetch rq))
    | Resolved r => (Return r, after st (Fetch rq))
    end.

(** [response.json()]. *)
Definition json (r : http_response) : M value :=
  s <- text r ;;
  match JSON_parse s with
  | Some v => ret v
  | None => throw SyntaxError
  end.

Definition GITHUB_EMAIL_URL : string :=
  "https://raw.githubusercontent.com/PratikDilipGade/PratikGade/main/email.txt".

(** A variable that holds [null], [undefined] or a string, read in a
    condition: the string when the variable is truthy.  Both
    [if (cachedEmailTemplate)] and [if (!RESEND_API_KEY)] are truthiness
    tests, so the empty string counts as absent. *)
Definition present (x : option string) : option string :=
  match x with
  | Some t => if truthy (Str t) then Some t else None
  | None => None
  end.

(** [getEmailTemplate] (pg.js, second module). *)
Definition getEmailTemplate : M string :=
  cached <- read_cache ;;
  match present cached with
  | Some t => ret t
  | None =>
      response <- fetch (GET GITHUB_EMAIL_URL) ;;
      if negb (ok response) then
        throw (Error ("Failed to fetch email template: "
                      ++ Z_to_string (status response)))
      else
        t <- text response ;;
        write_cache t ;;
        ret t
  end.

(** *** The request and the response *)

Record req : Type := Req {
  method : value;
  body : value
}.

(** [res.status(statusCode).json(data)]. *)
Record res : Type := Res {
  statusCode : Z;
  data : value
}.

Definition error_body (message : string) : value :=
  Obj [("error", Str message)].

Definition message_body (message : string) : value :=
  Obj [("message", Str message)].

Definition RESEND_URL : string := "https://api.resend.com/emails".
Definition RESEND_EMAIL : string := "Your Store <onboarding@resend.dev>".
Definition PAYMENT_COMPLETED : string := "PAYMENT.CAPTURE.COMPLETED".

Definition buyerEmail_path : list segment :=
  [Member "payer"; Member "email_address"].

Definition itemName_path : list segment :=
  [Member "purchase_units"; Item0; Member "items"; Item0; Member "name"].

(** [resource?.payer?.email_address]. *)
Definition extract_buyerEmail (resource : value) : value :=
  opt_chain resource buyerEmail_path.

(** [resource?.purchase_units?.[0]?.items?.[0]?.name || "Digital Product"]. *)
Definition extract_itemName (resource : value) : value :=
  or_else (opt_chain resource itemName_path) (Str "Digital Product").

(** The two values extracted from a decoded payload. *)
Definition buyerEmail_of (payload : value) : value :=
  extract_buyerEmail (member payload "resource").

Definition itemName_of (payload : value) : value :=
  extract_itemName (member payload "resource").

(** Step 2 of the handler: a string body goes through [JSON.parse], any
    other body is taken as it is; [None] when the parse throws. *)
Definition decode (b : value) : option value :=
  match b with
  | Str s => JSON_parse s
  | _ => Some b
  end.

(** The call to the email provider: a POST with the bearer token and the
    JSON body [{from, to, subject, html}], the subject being
    [`Your ${itemName} is ready!`] for the text [itemText] of the item
    name. *)
Definition resend_request (RESEND_API_KEY itemText : string) (buyerEmail : value)
           (personalizedEmail : string) : request :=
  POST RESEND_URL ("Bearer " ++ RESEND_API_KEY)
    (Email RESEND_EMAIL buyerEmail
       ("Your " ++ itemText ++ " is ready!")
       personalizedEmail).

(** Step 6 of the handler: the two [replace] calls, which throw when a
    replacement value cannot be converted to a string. *)
Definition replace_markers (emailTemplate : string) (itemName buyerEmail : value)
  : M string :=
  match Subst.personalize emailTemplate itemName buyerEmail with
  | Some personalizedEmail => ret personalizedEmail
  | None => throw TypeError
  end.

(** Steps 7 and 8 of the handler: the call to the email provider and the
    success response.  (The handler is one function in the source; its
    last stages are named here so that each can be reasoned about on its
    own.)  The inner [try] yields the decoded provider answer, its [catch]
    the response the handler returns at once. *)
Definition dispatch (itemName buyerEmail : value) (personalizedEmail : string)
  : M res :=
  key <- read_env_key ;;
  match present key with
  | None => ret (Res 500 (error_body "Resend API key not configured"))
  | Some RESEND_API_KEY =>
      sent <- try_catch
        (itemText <- ToString itemName ;;
         resendResponse <-
           fetch (resend_request RESEND_API_KEY itemText buyerEmail
                    personalizedEmail) ;;
         if negb (ok resendResponse) then
           t <- text resendResponse ;;
           console_error [Text "Resend API error response:"; Text t] ;;
           throw (Error ("Resend API error: "
                         ++ Z_to_string (status resendResponse)))
         else
           resendResult <- json resendResponse ;;
           ret (inr resendResult))
        (fun err =>
           console_error [Text "Failed to send email via Resend:"; Thrown err] ;;
           ret (inl (Res 500 (error_body "Failed to send email")))) ;;
      match sent with
      | inl early => ret early
      | inr resendResult =>
          emailText <- ToString buyerEmail ;;
          resendId <- get resendResult "id" ;;
          ret (Res 200
                 (Obj [("message", Str ("Email sent to " ++ emailText));
                       ("resendId", resendId)]))
      end
  end.

(** Steps 5 and 6 of the handler: the template, then the substitution. *)
Definition render_and_dispatch (itemName buyerEmail : value) : M res :=
  fetched <- try_catch
    (emailTemplate <- getEmailTemplate ;; ret (inr emailTemplate))
    (fun err =>
       console_error [Thrown err] ;;
       ret (inl (Res 500 (error_body "Failed to fetch email template")))) ;;
  match fetched with
  | inl early => ret early
  | inr emailTemplate =>
      personalizedEmail <- replace_markers emailTemplate itemName buyerEmail ;;
      dispatch itemName buyerEmail personalizedEmail
  end.

(** [paypalWebhookHandler] (pg.js, second module). *)
Definition paypalWebhookHandler (rq : req) : M res :=
  try_catch
    (if strict_neq_str (method rq) "POST" then
       ret (Res 405 (error_body "Method Not Allowed"))
     else
       match decode (body rq) with
       | None => ret (Res 400 (error_body "Invalid JSON body"))
       | Some body =>
           event_type <- get body "event_type" ;;
           if strict_neq_str event_type PAYMENT_COMPLETED then
             ret (Res 200 (message_body "Ignored non-payment event"))
           else
             resource <- get body "resource" ;;
             let buyerEmail := extract_buyerEmail resource in
             let itemName := extract_itemName resource in
             if negb (truthy buyerEmail) then
               ret (Res 400 (error_body "Buyer email not found in event"))
             else
               render_and_dispatch itemName buyerEmail
       end)
    (fun error =>
       console_error [Text "Webhook error:"; Thrown error] ;;
       ret (Res 500 (error_body "Internal Server Error"))).

(** A process serving requests one after the other. *)
Fixpoint serve (rqs : list req) (st : state) : state :=
  match rqs with
  | [] => st
  | rq :: rest => serve rest (snd (paypalWebhookHandler rq st))
  end.

(** The request is a POST whose decoded body is [payload]. *)
Definition post_of (rq : req) (payload : value) : Prop :=
  method rq = Str "POST" /\ decode (body rq) = Some payload.

(** The request is a POST carrying a payment-completed event. *)
Definition payment_completed (rq : req) (payload : value) : Prop :=
  post_of rq payload /\ member payload "event_type" = Str PAYMENT_COMPLETED.

(** The outcomes of the template fetch that leave the handler without a
    template: the transport fails, the status is not a success, or the body
    cannot be read. *)
Definition template_fetch_fails (r : fetch_result) : bool :=
  match r with
  | Rejected => true
  | Resolved r => negb (ok r) || match content r with None => true | Some _ => false end
  end.

End Handler.

End Webhook.

(* ===================================================================== *)
(** ** The superseded variants of the handler                             *)
(* ===================================================================== *)

(** The repository holds more copies of the handler, older and less
    defensive.  Three of them are embedded here as they are written, to
    record where they part from the handler above.  The fourth,
    [api/code.js], declares [handler] twice ([export default async
    function handler] and [export const handler]); such a module is
    refused when it is loaded, so there is no function of it to embed. *)
Module Superseded.

Import JS Webhook.
Local Open Scope js_scope.

Section Variants.

Variable JSON_parse : string -> option value.
Variable network : list event -> request -> fetch_result.

Local Notation "'fetch'" := (Webhook.fetch network).
Local Notation "'json'" := (Webhook.json JSON_parse).

(** [JSON.parse(text)] outside any [try] of its own. *)
Definition parse_or_throw (s : string) : M value :=
  match JSON_parse s with
  | Some v => ret v
  | None => throw SyntaxError
  end.

(** The call to the email provider of the variants that read the
    credential without testing it: an unset variable is interpolated as
    the text [undefined]. *)
Definition resend_request_unchecked (key : option string)
           (itemText : string) (buyerEmail : value) (personalizedEmail : string)
  : request :=
  resend_request
    (match key with Some k => k | None => "undefined" end)
    itemText buyerEmail personalizedEmail.

(** [{ message: `Email sent to ${buyerEmail}`, resendId: ... }]. *)
Definition success (buyerEmail : value) (resendId : M value) : M res :=
  emailText <- ToString buyerEmail ;;
  id <- resendId ;;
  ret (Res 200 (Obj [("message", Str ("Email sent to " ++ emailText));
                     ("resendId", id)])).

Definition catch_all (error : exn) : M res :=
  console_error [Text "Webhook error:"; Thrown error] ;;
  ret (Res 500 (error_body "Internal Server Error")).

(** *** [pg.js], first module *)

Definition pg_first_paypalWebhookHandler (rq : req) : M res :=
  try_catch
    (if strict_neq_str (method rq) "POST" then
       ret (Res 405 (error_body "Method Not Allowed"))
     else
       body <- match body rq with
               | Str s => parse_or_throw s
               | b => ret b
               end ;;
       event_type <- get body "event_type" ;;
       if strict_neq_str event_type PAYMENT_COMPLETED then
         ret (Res 200 (message_body "Ignored non-payment event"))
       else
         resource <- get body "resource" ;;
         let buyerEmail := extract_buyerEmail resource in
         let itemName := extract_itemName resource in
         if negb (truthy buyerEmail) then
           ret (Res 400 (error_body "Buyer email not found in event"))
         else
           fetched <- try_catch
             (response <- fetch (GET GITHUB_EMAIL_URL) ;;
              if negb (ok response) then
                throw (Error ("GitHub fetch failed: " ++ Z_to_string (status response)))
              else
                emailTemplate <- text response ;;
                ret (inr emailTemplate))
             (fun err =>
                console_error [Text "Failed to fetch email template:"; Thrown err] ;;
                ret (inl (Res 500 (error_body "Failed to fetch email template")))) ;;
           match fetched with
           | inl early => ret early
           | inr emailTemplate =>
               personalizedEmail <-
                 replace_markers emailTemplate itemName buyerEmail ;;
               key <- read_env_key ;;
               match present key with
               | None => ret (Res 500 (error_body "Resend API key not configured"))
               | Some RESEND_API_KEY =>
                   sent <- try_catch
                     (itemText <- ToString itemName ;;
                      resendResponse <-
                        fetch (resend_request RESEND_API_KEY itemText buyerEmail
                                 personalizedEmail) ;;
                      if negb (ok resendResponse) then
                        t <- text resendResponse ;;
                        throw (Error ("Resend API error: "
                                      ++ Z_to_string (status resendResponse)
                                      ++ " " ++ t))
                      else
                        resendResult <- json resendResponse ;;
                        ret (inr resendResult))
                     (fun err =>
                        console_error
                          [Text "Failed to send email via Resend:"; Thrown err] ;;
                        ret (inl (Res 500 (error_body "Failed to send email")))) ;;
                   match sent with
                   | inl early => ret early
                   | inr resendResult =>
                       success buyerEmail (get resendResult "id")
                   end
               end
           end)
    catch_all.

(** *** The first unnamed file *)

Definition part_000_handler (rq : req) : M res :=
  try_catch
    (if strict_neq_str (method rq) "POST" then
       ret (Res 405 (error_body "Method Not Allowed"))
     else
       body <- match body rq with
               | Str s => parse_or_throw s
               | b => ret b
               end ;;
       event_type <- get body "event_type" ;;
       if strict_neq_str event_type PAYMENT_COMPLETED then
         ret (Res 200 (message_body "Ignored non-payment event"))
       else
         resource <- get body "resource" ;;
         let buyerEmail := extract_buyerEmail resource in
         let itemName := extract_itemName resource in
         if negb (truthy buyerEmail) then
           ret (Res 400 (error_body "Buyer email not found in event"))
         else
           emailTemplateResponse <- fetch (GET GITHUB_EMAIL_URL) ;;
           if negb (ok emailTemplateResponse) then
             throw (Error ("Failed to fetch email template: "
                           ++ Z_to_string (status emailTemplateResponse)))
           else
             emailTemplate <- text emailTemplateResponse ;;
             personalizedEmail <-
               replace_markers emailTemplate itemName buyerEmail ;;
             key <- read_env_key ;;
             itemText <- ToString itemName ;;
             resendResponse <-
               fetch (resend_request_unchecked key itemText buyerEmail
                        personalizedEmail) ;;
             result <- json resendResponse ;;
             success buyerEmail (get result "id"))
    catch_all.

(** *** The second unnamed file *)

(** Its [getEmailTemplate] is, word for word, the one of [pg.js]. *)
Definition part_001_getEmailTemplate : M string :=
  getEmailTemplate network.

Definition part_001_sendEmail (to : value) (subject html : string) : M value :=
  key <- read_env_key ;;
  match present key with
  | None => throw (Error "Resend API key not configured")
  | Some RESEND_API_KEY =>
      response <-
        fetch (POST RESEND_URL ("Bearer " ++ RESEND_API_KEY)
                 (Email RESEND_EMAIL to subject html)) ;;
      if negb (ok response) then
        t <- text response ;;
        console_error [Text "Resend API error response:"; Text t] ;;
        throw (Error ("Resend API error: " ++ Z_to_string (status response)))
      else
        json response
  end.

Definition part_001_paypalWebhookHandler (rq : req) : M res :=
  try_catch
    (if strict_neq_str (method rq) "POST" then
       ret (Res 405 (error_body "Method Not Allowed"))
     else
       match decode JSON_parse (body rq) with
       | None => ret (Res 400 (error_body "Invalid JSON body"))
       | Some body =>
           event_type <- get body "event_type" ;;
           if strict_neq_str event_type PAYMENT_COMPLETED then
             ret (Res 200 (message_body "Ignored non-payment event"))
           else
             resource <- get body "resource" ;;
             let buyerEmail := extract_buyerEmail resource in
             let itemName := extract_itemName resource in
             if negb (truthy buyerEmail) then
               ret (Res 400 (error_body "Buyer email not found in event"))
             else
               emailTemplate <- part_001_getEmailTemplate ;;
               personalizedEmail <-
                 replace_markers emailTemplate itemName buyerEmail ;;
               itemText <- ToString itemName ;;
               resendResult <-
                 part_001_sendEmail buyerEmail
                   ("Your " ++ itemText ++ " is ready!")
                   personalizedEmail ;;
               success buyerEmail (get resendResult "id")
       end)
    catch_all.

End Variants.

End Superseded.


(* ===================================================================== *)
(** ** The AWS Lambda entry point                                         *)
(* ===================================================================== *)

(** [export const handler] of [pg.js], second module: it builds the
    request from the API Gateway event and a [res] whose
    [status(code).json(data)] yields the Lambda proxy response. *)
Module Lambda.

Import JS Webhook.
Local Open Scope js_scope.

(** [{ statusCode, headers, body }]. *)
Record lambda_result : Type := LambdaResult {
  statusCode : Z;
  headers : list (string * string);
  result_body : string
}.

Section Wrapper.

(** [JSON.stringify], applied by the wrapper to the object literals the
    handler passes to [json]. *)
Variable JSON_stringify : value -> string.
Variable JSON_parse : string -> option value.
Variable network : list event -> request -> fetch_result.

(** The event is whatever the platform passes; [event.httpMethod] and
    [event.body] are read before the handler is called, outside any
    [try]. *)
Definition handler (event : value) : M lambda_result :=
  httpMethod <- get event "httpMethod" ;;
  body <- get event "body" ;;
  answer <- paypalWebhookHandler JSON_parse network (Req httpMethod body) ;;
  ret (LambdaResult (Webhook.statusCode answer)
         [("Content-Type", "application/json")]
         (JSON_stringify (data answer))).

End Wrapper.

End Lambda.


(* ===================================================================== *)
(** ** Vocabulary for what a request does                                 *)
(* ===================================================================== *)

Module Observe.

Import JS Webhook.

(** The event is a log line or a call to one of the two endpoints the
    handler knows: a GET of the template, a POST to the email provider. *)
Definition known_endpoint (e : event) : bool :=
  match e with
  | Fetch (GET url) => url =? GITHUB_EMAIL_URL
  | Fetch (POST url _ _) => url =? RESEND_URL
  | ConsoleError _ => true
  end.

(** The provider's answer never arrives in usable form: the transport
    fails, the body cannot be read, or a success status comes with a body
    that is not JSON. *)
Definition answer_lost (JSON_parse : string -> option value)
           (r : fetch_result) : bool :=
  match r with
  | Rejected => true
  | Resolved r =>
      match content r with
      | None => true
      | Some t =>
          ok r && match JSON_parse t with None => true | Some _ => false end
      end
  end.

End Observe.


(* ===================================================================== *)
(** ** Concrete runs                                                      *)
(* ===================================================================== *)

(** The requests, templates and collaborators of the scenarios of the
    specification, used below to run the handler. *)
Module Scenario.

Import JS Webhook.

Definition quote : string := String (ascii_of_nat 34) "".

(** The provider's answer [{"id":"em_123"}]. *)
Definition provider_answer : string :=
  "{" ++ quote ++ "id" ++ quote ++ ":" ++ quote ++ "em_123" ++ quote ++ "}".

(** The provider's refusal [{"name":"validation_error"}]. *)
Definition provider_refusal : string :=
  "{" ++ quote ++ "name" ++ quote ++ ":" ++ quote ++ "validation_error" ++ quote ++ "}".

(** A stand-in for [JSON.parse] that knows the texts of the scenarios and
    rejects everything else. *)
Definition parse (s : string) : option value :=
  if s =? provider_answer then Some (Obj [("id", Str "em_123")])
  else if s =? provider_refusal then Some (Obj [("name", Str "validation_error")])
  else if s =? "null" then Some Null
  else if s =? "{}" then Some (Obj [])
  else None.

Definition template : string := "Item: {{itemName}} / To: {{buyerEmail}}".

(** Both collaborators answer with success. *)
Definition all_up (history : list event) (rq : request) : fetch_result :=
  match rq with
  | GET _ => Resolved (HttpResponse 200 (Some template))
  | POST _ _ _ => Resolved (HttpResponse 200 (Some provider_answer))
  end.

(** The template source answers 404. *)
Definition template_down (history : list event) (rq : request) : fetch_result :=
  match rq with
  | GET _ => Resolved (HttpResponse 404 (Some "404: Not Found"))
  | POST _ _ _ => Resolved (HttpResponse 200 (Some provider_answer))
  end.

(** The email provider answers 422 with a diagnostic body. *)
Definition provider_down (history : list event) (rq : request) : fetch_result :=
  match rq with
  | GET _ => Resolved (HttpResponse 200 (Some template))
  | POST _ _ _ => Resolved (HttpResponse 422 (Some provider_refusal))
  end.

(** The template source serves an empty file. *)
Definition empty_template (history : list event) (rq : request) : fetch_result :=
  match rq with
  | GET _ => Resolved (HttpResponse 200 (Some ""))
  | POST _ _ _ => Resolved (HttpResponse 200 (Some provider_answer))
  end.

Definition payer : value :=
  Obj [("email_address", Str "buyer@x.com")].

(** The payment-completed event of the end-to-end scenario. *)
Definition paid_event : value :=
  Obj [("event_type", Str "PAYMENT.CAPTURE.COMPLETED");
       ("resource",
        Obj [("payer", payer);
             ("purchase_units",
              Arr [Obj [("items", Arr [Obj [("name", Str "E-book")]])]])])].

(** The same event with [purchase_units] absent. *)
Definition paid_event_no_units : value :=
  Obj [("event_type", Str "PAYMENT.CAPTURE.COMPLETED");
       ("resource", Obj [("payer", payer)])].

(** The same event with no payer. *)
Definition paid_event_no_payer : value :=
  Obj [("event_type", Str "PAYMENT.CAPTURE.COMPLETED");
       ("resource", Obj [])].

(** The same event with an email address that is not a string: an array
    holding an object with a [toString] key, as JSON can carry it. *)
Definition paid_event_odd_email : value :=
  Obj [("event_type", Str "PAYMENT.CAPTURE.COMPLETED");
       ("resource",
        Obj [("payer",
              Obj [("email_address", Arr [Obj [("toString", Null)]])])])].

Definition refund_event : value :=
  Obj [("event_type", Str "PAYMENT.CAPTURE.REFUNDED")].

Definition post (b : value) : req := Req (Str "POST") b.

Definition key : option string := Some "re_test_key".

(** The email provider cannot be reached. *)
Definition provider_unreachable (history : list event) (rq : request)
  : fetch_result :=
  match rq with
  | GET _ => Resolved (HttpResponse 200 (Some template))
  | POST _ _ _ => Rejected
  end.

(** The email provider answers 200 with the JSON text [null]. *)
Definition provider_null (history : list event) (rq : request) : fetch_result :=
  match rq with
  | GET _ => Resolved (HttpResponse 200 (Some template))
  | POST _ _ _ => Resolved (HttpResponse 200 (Some "null"))
  end.

(** A serialiser for the wrapper's runs: it tells the answers apart by
    their first key. *)
Definition stringify (v : value) : string :=
  match v with
  | Obj ((k, _) :: _) => "{" ++ quote ++ k ++ quote ++ ":...}"
  | _ => "{}"
  end.


End Scenario.


(* ===================================================================== *)
(** ** Properties of the request validator                                *)
(* ===================================================================== *)

Import JS Webhook.

Lemma strict_neq_str_same (lit : string) : strict_neq_str (Str lit) lit = false.
Proof. simpl. now rewrite String.eqb_refl. Qed.

Lemma strict_neq_str_other (v : value) (lit : string) :
  v <> Str lit -> strict_neq_str v lit = true.
Proof.
  destruct v; simpl; try reflexivity.
  intros H. destruct (String.eqb_spec s lit) as [->|]; [now elim H | reflexivity].
Qed.

Lemma member_defined (v w : value) (k : string) :
  member v k = w -> w <> Undefined -> nullish v = false.
Proof. destruct v; simpl; intros; subst; congruence. Qed.

(** *** Optional chains *)

Lemma opt_chain_app (v : value) (p q : list segment) :
  opt_chain v (p ++ q) = opt_chain (opt_chain v p) q.
Proof. unfold opt_chain. apply fold_left_app. Qed.

(** Once a link of the chain is [null] or [undefined], the rest of the
    chain reads [undefined] (or is that value, when nothing is left). *)
Lemma opt_chain_nullish (v : value) (q : list segment) :
  nullish v = true -> nullish (opt_chain v q) = true.
Proof.
  revert v. induction q as [|seg q IH]; intros v H; simpl; [assumption|].
  apply IH. unfold opt_read. now rewrite H.
Qed.

Lemma nullish_falsy (v : value) : nullish v = true -> truthy v = false.
Proof. now destruct v. Qed.

(** A missing link anywhere on the path makes the whole chain falsy. *)
Lemma opt_chain_missing (v : value) (path : list segment) (n : nat) :
  nullish (opt_chain v (firstn n path)) = true ->
  truthy (opt_chain v path) = false.
Proof.
  intros H. rewrite <- (firstn_skipn n path), opt_chain_app.
  now apply nullish_falsy, opt_chain_nullish.
Qed.

Lemma extract_itemName_default (resource : value) (n : nat) :
  nullish (opt_chain resource (firstn n itemName_path)) = true ->
  extract_itemName resource = Str "Digital Product".
Proof.
  intros H. unfold extract_itemName, or_else.
  now rewrite (opt_chain_missing _ _ _ H).
Qed.


Section Validator.

Variable JSON_parse : string -> option value.
Variable network : list event -> request -> fetch_result.

Local Notation "'handler'" := (paypalWebhookHandler JSON_parse network).

(** C4.  A request whose method is not POST is answered 405 with
    [{error: "Method Not Allowed"}]; the process state is left as it was,
    so no template fetch and no dispatch to the email provider is made. *)
Theorem non_post_method_not_allowed (rq : req) (st : state) :
  method rq <> Str "POST" ->
  handler rq st = (Return (Res 405 (error_body "Method Not Allowed")), st)
  /\ network_calls (snd (handler rq st)) = network_calls st
  /\ template_fetches (snd (handler rq st)) = template_fetches st
  /\ dispatches (snd (handler rq st)) = dispatches st.
Proof.
  intros Hm.
  assert (E : handler rq st
              = (Return (Res 405 (error_body "Method Not Allowed")), st)).
  { unfold paypalWebhookHandler, try_catch.
    now rewrite (strict_neq_str_other _ _ Hm). }
  rewrite E. auto.
Qed.

(** C7.  A POST whose body is a string that [JSON.parse] rejects is
    answered 400 with [{error: "Invalid JSON body"}]: the failure is
    handled where it occurs, nothing is thrown to the catch-all (no
    "Webhook error" is logged, the status is not 500) and the state is
    untouched. *)
Theorem malformed_body_rejected (rq : req) (st : state) (s : string) :
  method rq = Str "POST" ->
  body rq = Str s ->
  JSON_parse s = None ->
  handler rq st = (Return (Res 400 (error_body "Invalid JSON body")), st)
  /\ fst (handler rq st) <> Return (Res 500 (error_body "Internal Server Error"))
  /\ trace (snd (handler rq st)) = trace st.
Proof.
  intros Hm Hb Hp.
  assert (E : handler rq st
              = (Return (Res 400 (error_body "Invalid JSON body")), st)).
  { unfold paypalWebhookHandler, try_catch.
    rewrite Hm, strict_neq_str_same. unfold decode. now rewrite Hb, Hp. }
  rewrite E. repeat split. discriminate.
Qed.

(** C5.  A POST whose decoded payload carries an [event_type] other than
    ["PAYMENT.CAPTURE.COMPLETED"] (the property may also be absent: it then
    reads as [undefined]) is answered 200 with
    [{message: "Ignored non-payment event"}]; the state is left as it was,
    so neither the template stage nor the dispatch stage is entered and no
    network call is made.  The payload is any value on which the property
    can be read, that is any value but [null] and [undefined]. *)
Theorem other_event_ignored (rq : req) (st : state) (payload : value) :
  post_of JSON_parse rq payload ->
  nullish payload = false ->
  member payload "event_type" <> Str PAYMENT_COMPLETED ->
  handler rq st
  = (Return (Res 200 (message_body "Ignored non-payment event")), st)
  /\ network_calls (snd (handler rq st)) = network_calls st.
Proof.
  intros [Hm Hd] Hn He.
  assert (E : handler rq st
              = (Return (Res 200 (message_body "Ignored non-payment event")), st)).
  { unfold paypalWebhookHandler, try_catch.
    rewrite Hm, strict_neq_str_same, Hd.
    unfold bind, get. rewrite Hn. unfold ret.
    now rewrite (strict_neq_str_other _ _ He). }
  rewrite E. auto.
Qed.

(** The handler up to the end of validation, for a payment-completed event
    whose buyer email is falsy. *)
Lemma falsy_buyer_rejected (rq : req) (st : state) (payload : value) :
  payment_completed JSON_parse rq payload ->
  truthy (buyerEmail_of payload) = false ->
  handler rq st
  = (Return (Res 400 (error_body "Buyer email not found in event")), st).
Proof.
  unfold buyerEmail_of, itemName_of. intros [[Hm Hd] He] Hb.
  assert (Hn : nullish payload = false)
    by (apply (member_defined _ _ _ He); discriminate).
  unfold paypalWebhookHandler, try_catch.
  rewrite Hm, strict_neq_str_same, Hd.
  unfold bind, get. rewrite Hn. unfold ret.
  rewrite He. unfold PAYMENT_COMPLETED at 1. rewrite strict_neq_str_same.
  now rewrite Hb.
Qed.

(** C6.  A payment-completed event in which
    [resource.payer.email_address] is absent (the optional chain reads
    [undefined]) is answered 400 with
    [{error: "Buyer email not found in event"}]; the state is left as it
    was, so the email provider is never called. *)
Theorem missing_buyer_email_rejected (rq : req) (st : state) (payload : value) :
  payment_completed JSON_parse rq payload ->
  buyerEmail_of payload = Undefined ->
  handler rq st
  = (Return (Res 400 (error_body "Buyer email not found in event")), st)
  /\ dispatches (snd (handler rq st)) = dispatches st.
Proof.
  intros Hp Hb.
  assert (E : handler rq st
              = (Return (Res 400 (error_body "Buyer email not found in event")), st)).
  { apply (falsy_buyer_rejected rq st payload Hp). now rewrite Hb. }
  rewrite E. auto.
Qed.

End Validator.

(* ===================================================================== *)
(** ** Properties of the template provider                                *)
(* ===================================================================== *)

Lemma present_some (x : option string) (t : string) :
  present x = Some t <-> x = Some t /\ t <> "".
Proof.
  unfold present. destruct x as [u|]; simpl.
  - destruct (String.eqb_spec u ""); simpl; split.
    + discriminate.
    + intros [[= ->] H]. now elim H.
    + intros [= ->]. auto.
    + now intros [[= ->] _].
  - split; [discriminate | now intros [? _]].
Qed.

Lemma filter_snoc {A} (f : A -> bool) (l : list A) (x : A) :
  filter f (l ++ [x]) = (filter f l ++ (if f x then [x] else []))%list.
Proof. now rewrite filter_app. Qed.

Lemma template_fetches_after (st : state) (e : event) :
  template_fetches (after st e)
  = template_fetches st + (if is_template_fetch e then 1 else 0).
Proof.
  unfold template_fetches, after; simpl.
  rewrite filter_snoc, length_app. now destruct (is_template_fetch e).
Qed.

Section TemplateProvider.

Variable network : list event -> request -> fetch_result.

Local Notation "'get_template'" := (getEmailTemplate network).

(** With a usable cached template the provider returns it and does nothing
    else. *)
Lemma getEmailTemplate_cached (st : state) (t : string) :
  present (cachedEmailTemplate st) = Some t ->
  get_template st = (Return t, st).
Proof.
  intros H. unfold getEmailTemplate, bind, read_cache. now rewrite H.
Qed.

(** Without one it fetches; what it does next depends on the answer. *)
Lemma getEmailTemplate_uncached (st : state) :
  present (cachedEmailTemplate st) = None ->
  get_template st =
  match network (trace st) (GET GITHUB_EMAIL_URL) with
  | Rejected => (Throw FetchError, after st (Fetch (GET GITHUB_EMAIL_URL)))
  | Resolved r =>
      if ok r then
        match content r with
        | Some t =>
            (Return t,
             State (Some t) (RESEND_API_KEY st)
                   (trace st ++ [Fetch (GET GITHUB_EMAIL_URL)]))
        | None => (Throw FetchError, after st (Fetch (GET GITHUB_EMAIL_URL)))
        end
      else
        (Throw (Error ("Failed to fetch email template: " ++ Z_to_string (status r))),
         after st (Fetch (GET GITHUB_EMAIL_URL)))
  end.
Proof.
  intros H. unfold getEmailTemplate, bind, read_cache. rewrite H.
  unfold fetch. destruct (network _ _) as [|r]; [reflexivity|].
  destruct (ok r); simpl; [| reflexivity].
  unfold text. now destruct (content r).
Qed.

(** Without a usable cached template an invocation always goes to the
    network. *)
Lemma getEmailTemplate_refetches (st : state) :
  present (cachedEmailTemplate st) = None ->
  trace (snd (get_template st))
  = (trace st ++ [Fetch (GET GITHUB_EMAIL_URL)])%list.
Proof.
  intros H. rewrite (getEmailTemplate_uncached st H).
  destruct (network _ _) as [|r]; [reflexivity|].
  destruct (ok r); [destruct (content r)|]; reflexivity.
Qed.

(** A failing fetch makes the provider throw, with nothing but the fetch
    recorded. *)
Lemma getEmailTemplate_fails (st : state) :
  present (cachedEmailTemplate st) = None ->
  template_fetch_fails (network (trace st) (GET GITHUB_EMAIL_URL)) = true ->
  exists e, get_template st = (Throw e, after st (Fetch (GET GITHUB_EMAIL_URL))).
Proof.
  intros H Hfail. rewrite (getEmailTemplate_uncached st H).
  unfold template_fetch_fails in Hfail.
  destruct (network _ _) as [|r]; [now eexists|].
  destruct (ok r); simpl in Hfail; [| now eexists].
  destruct (content r); [discriminate | now eexists].
Qed.

(** Whatever happens, one invocation makes at most one template fetch, and
    exactly one when nothing usable is cached. *)
Lemma getEmailTemplate_fetches (st : state) :
  template_fetches (snd (get_template st))
  = match present (cachedEmailTemplate st) with
    | Some _ => template_fetches st
    | None => S (template_fetches st)
    end.
Proof.
  destruct (present (cachedEmailTemplate st)) as [t|] eqn:H.
  - now rewrite (getEmailTemplate_cached st t H).
  - rewrite (getEmailTemplate_uncached st H).
    destruct (network _ _) as [|r]; [| destruct (ok r); [destruct (content r) |]];
      simpl; try (rewrite template_fetches_after; simpl; lia).
    unfold template_fetches; simpl. rewrite filter_snoc, length_app. simpl. lia.
Qed.

End TemplateProvider.

(* ===================================================================== *)
(** ** Properties of the whole handler                                    *)
(* ===================================================================== *)

(** The stages are reasoned about through their lemmas, not by unfolding. *)
Arguments getEmailTemplate : simpl never.
Arguments dispatch : simpl never.
Arguments render_and_dispatch : simpl never.
Arguments after : simpl never.

(** Case analysis on whatever the computation inspects next. *)
Ltac branch :=
  match goal with
  | |- context [match ?x with _ => _ end] =>
      lazymatch x with
      | context [match _ with _ => _ end] => fail
      | _ => destruct x eqn:?
      end
  end.

(** Unfolding the plumbing of the monad, and nothing else. *)
Ltac mstep :=
  cbv [bind ret throw try_catch console_error record read_env_key read_cache
       write_cache get text ToString replace_markers].

Ltac run :=
  unfold bind, ret, throw, try_catch, console_error, record, read_env_key,
    read_cache, write_cache, get, text, ToString, replace_markers; simpl.

(** Counting events of one kind along a trace that has grown. *)
Ltac count_events :=
  unfold template_fetches, dispatches, network_calls, after; simpl;
  repeat rewrite filter_app; simpl;
  repeat rewrite length_app; simpl; try lia.

Section Pipeline.

Variable JSON_parse : string -> option value.
Variable network : list event -> request -> fetch_result.

Local Notation "'handler'" := (paypalWebhookHandler JSON_parse network).
Local Notation "'get_template'" := (getEmailTemplate network).
Local Notation "'send'" := (dispatch JSON_parse network).

(** The catch-all of the handler. *)
Local Notation "'catch_all'" :=
  (fun error =>
     bind (console_error [Text "Webhook error:"; Thrown error])
          (fun _ => ret (Res 500 (error_body "Internal Server Error")))).

(** Past validation the handler is the template stage followed by the
    dispatch stage, under the catch-all. *)
Lemma handler_validated (rq : req) (st : state) (payload : value) :
  payment_completed JSON_parse rq payload ->
  truthy (buyerEmail_of payload) = true ->
  handler rq st
  = try_catch
      (render_and_dispatch JSON_parse network
         (itemName_of payload)
         (buyerEmail_of payload))
      catch_all st.
Proof.
  unfold buyerEmail_of, itemName_of. intros [[Hm Hd] He] Hb.
  assert (Hn : nullish payload = false)
    by (apply (member_defined _ _ _ He); discriminate).
  unfold paypalWebhookHandler, try_catch.
  rewrite Hm, strict_neq_str_same, Hd.
  unfold bind at 1, get. rewrite Hn. unfold ret at 1.
  rewrite He. unfold PAYMENT_COMPLETED at 1. rewrite strict_neq_str_same.
  unfold bind at 1. unfold ret at 1. now rewrite Hb.
Qed.

(** The dispatch stage never touches the cache and never calls the
    template source. *)
Lemma dispatch_frame (itemName buyerEmail : value) (html : string) (st : state) :
  cachedEmailTemplate (snd (send itemName buyerEmail html st))
  = cachedEmailTemplate st
  /\ template_fetches (snd (send itemName buyerEmail html st))
     = template_fetches st.
Proof.
  unfold dispatch, fetch, json, resend_request. run.
  repeat (branch; run); split; try reflexivity; count_events.
Qed.

Lemma try_catch_return {A} (c : M A) (h : exn -> M A) (st st' : state) (a : A) :
  c st = (Return a, st') -> try_catch c h st = (Return a, st').
Proof. intros H. unfold try_catch. now rewrite H. Qed.

(** The template stage, by what the template provider does. *)
Lemma render_and_dispatch_available (itemName buyerEmail : value)
      (st st1 : state) (t : string) :
  get_template st = (Return t, st1) ->
  render_and_dispatch JSON_parse network itemName buyerEmail st
  = bind (replace_markers t itemName buyerEmail)
         (fun personalizedEmail => send itemName buyerEmail personalizedEmail) st1.
Proof.
  intros H. unfold render_and_dispatch, try_catch, bind at 1.
  unfold bind at 1. now rewrite H.
Qed.

(** With the template there and both values convertible, the dispatch
    stage runs on the personalised template. *)
Lemma render_and_dispatch_sends (itemName buyerEmail : value)
      (st st1 : state) (t html : string) :
  get_template st = (Return t, st1) ->
  Subst.personalize t itemName buyerEmail = Some html ->
  render_and_dispatch JSON_parse network itemName buyerEmail st
  = send itemName buyerEmail html st1.
Proof.
  intros H Hp. rewrite (render_and_dispatch_available _ _ _ _ _ H).
  unfold bind, replace_markers. now rewrite Hp.
Qed.

(** When one of the values cannot be converted, [replace] throws and the
    dispatch stage is not entered. *)
Lemma render_and_dispatch_throws (itemName buyerEmail : value)
      (st st1 : state) (t : string) :
  get_template st = (Return t, st1) ->
  Subst.personalize t itemName buyerEmail = None ->
  render_and_dispatch JSON_parse network itemName buyerEmail st
  = (Throw TypeError, st1).
Proof.
  intros H Hp. rewrite (render_and_dispatch_available _ _ _ _ _ H).
  unfold bind, replace_markers. now rewrite Hp.
Qed.

Lemma render_and_dispatch_unavailable (itemName buyerEmail : value)
      (st st1 : state) (e : exn) :
  get_template st = (Throw e, st1) ->
  render_and_dispatch JSON_parse network itemName buyerEmail st
  = (Return (Res 500 (error_body "Failed to fetch email template")),
     after st1 (ConsoleError [Thrown e])).
Proof.
  intros H. unfold render_and_dispatch, try_catch, bind at 1.
  unfold bind at 1. now rewrite H.
Qed.

(** The last two stages never touch the cache and make no template fetch
    of their own. *)
Lemma after_template_frame (itemName buyerEmail : value) (t : string)
      (st : state) :
  cachedEmailTemplate
    (snd (bind (replace_markers t itemName buyerEmail)
            (fun html => send itemName buyerEmail html) st))
  = cachedEmailTemplate st
  /\ template_fetches
       (snd (bind (replace_markers t itemName buyerEmail)
               (fun html => send itemName buyerEmail html) st))
     = template_fetches st.
Proof.
  unfold bind, replace_markers.
  destruct (Subst.personalize t itemName buyerEmail) as [html|]; simpl.
  - apply dispatch_frame.
  - auto.
Qed.

(** A request served while a usable template is cached leaves the cache
    as it is and makes no template fetch. *)
Lemma handler_keeps_cache (rq : req) (st : state) (t : string) :
  present (cachedEmailTemplate st) = Some t ->
  cachedEmailTemplate (snd (handler rq st)) = cachedEmailTemplate st
  /\ template_fetches (snd (handler rq st)) = template_fetches st.
Proof.
  intros H. unfold paypalWebhookHandler, get.
  destruct (strict_neq_str (method rq) "POST"); [now run|].
  destruct (decode JSON_parse (body rq)) as [payload|]; [| now run].
  destruct (nullish payload); [run; split; [reflexivity | count_events]|].
  destruct (strict_neq_str (member payload "event_type") PAYMENT_COMPLETED) eqn:He;
    run; rewrite He; [now simpl|].
  fold (buyerEmail_of payload). fold (itemName_of payload).
  destruct (truthy (buyerEmail_of payload)); simpl;
    [| now simpl].
  rewrite (render_and_dispatch_available _ _ st st t
             (getEmailTemplate_cached network st t H)).
  match goal with
  | |- context [bind (replace_markers t ?i ?b) ?k st] =>
      destruct (after_template_frame i b t st) as [Hc Hf];
      destruct (bind (replace_markers t i b) k st) as [[?|?] ?];
      simpl in Hc, Hf; simpl
  end.
  - auto.
  - split; [assumption|]. rewrite <- Hf. count_events.
Qed.

Lemma serve_keeps_cache (rqs : list req) (st : state) (t : string) :
  present (cachedEmailTemplate st) = Some t ->
  cachedEmailTemplate (serve JSON_parse network rqs st) = cachedEmailTemplate st
  /\ template_fetches (serve JSON_parse network rqs st) = template_fetches st.
Proof.
  revert st. induction rqs as [|rq rest IH]; intros st H; simpl; [auto|].
  destruct (handler_keeps_cache rq st t H) as [Hc Hf].
  destruct (IH (snd (handler rq st))) as [Hc' Hf'].
  - now rewrite Hc.
  - split; congruence.
Qed.

(** *** The dispatch stage *)

(** A provider answer with a non-success status: the body goes to the
    console, the caller gets the fixed failure response. *)
Lemma dispatch_rejected (itemName buyerEmail : value) (html key itemText : string)
      (st : state) (r : http_response) :
  to_string itemName = Some itemText ->
  present (RESEND_API_KEY st) = Some key ->
  network (trace st) (resend_request key itemText buyerEmail html) = Resolved r ->
  ok r = false ->
  send itemName buyerEmail html st
  = (Return (Res 500 (error_body "Failed to send email")),
     match content r with
     | Some t =>
         after (after (after st (Fetch (resend_request key itemText buyerEmail html)))
                  (ConsoleError [Text "Resend API error response:"; Text t]))
           (ConsoleError
              [Text "Failed to send email via Resend:";
               Thrown (Error ("Resend API error: " ++ Z_to_string (status r)))])
     | None =>
         after (after st (Fetch (resend_request key itemText buyerEmail html)))
           (ConsoleError [Text "Failed to send email via Resend:"; Thrown FetchError])
     end).
Proof.
  intros Hi Hk Hn Hok. unfold dispatch, fetch. mstep.
  rewrite Hk, Hi. cbv beta iota. rewrite Hn, Hok. simpl. now destruct (content r).
Qed.

(** A provider answer with a success status and a JSON body that is not
    [null]: the caller gets the success response with the provider's id. *)
Lemma dispatch_sent (itemName buyerEmail : value)
      (html key itemText emailText : string)
      (st : state) (r : http_response) (t : string) (resendResult : value) :
  to_string itemName = Some itemText ->
  to_string buyerEmail = Some emailText ->
  present (RESEND_API_KEY st) = Some key ->
  network (trace st) (resend_request key itemText buyerEmail html) = Resolved r ->
  ok r = true ->
  content r = Some t ->
  JSON_parse t = Some resendResult ->
  nullish resendResult = false ->
  send itemName buyerEmail html st
  = (Return (Res 200 (Obj [("message", Str ("Email sent to " ++ emailText));
                           ("resendId", member resendResult "id")])),
     after st (Fetch (resend_request key itemText buyerEmail html))).
Proof.
  intros Hi Hb Hk Hn Hok Hc Hj Hnull. unfold dispatch, fetch, json. mstep.
  rewrite Hk, Hi. cbv beta iota. rewrite Hn, Hok, Hc, Hj. simpl.
  now rewrite Hb, Hnull.
Qed.

(** With a credential configured and an item name that can be written
    into the subject, the provider is called, exactly once, whatever it
    answers. *)
Lemma dispatch_calls_provider (itemName buyerEmail : value)
      (html key itemText : string) (st : state) :
  to_string itemName = Some itemText ->
  present (RESEND_API_KEY st) = Some key ->
  exists rest,
    trace (snd (send itemName buyerEmail html st))
    = (trace st ++ Fetch (resend_request key itemText buyerEmail html) :: rest)%list
    /\ filter is_dispatch rest = [].
Proof.
  intros Hi Hk. unfold dispatch, fetch, json. mstep.
  rewrite Hk, Hi. cbv beta iota.
  repeat (branch; run);
    unfold after; simpl;
    repeat rewrite <- app_assoc; simpl; eexists; split; reflexivity.
Qed.

(** The responses of the two last stages carry status 200 or 500. *)
Lemma dispatch_status (itemName buyerEmail : value) (html : string)
      (st st' : state) (r : res) :
  send itemName buyerEmail html st = (Return r, st') ->
  statusCode r = 200%Z \/ statusCode r = 500%Z.
Proof.
  unfold dispatch, fetch, json. run.
  repeat (branch; run); intros [= <- <-]; simpl; auto; discriminate.
Qed.

Lemma render_and_dispatch_status (itemName buyerEmail : value)
      (st st' : state) (r : res) :
  render_and_dispatch JSON_parse network itemName buyerEmail st = (Return r, st') ->
  statusCode r = 200%Z \/ statusCode r = 500%Z.
Proof.
  destruct (get_template st) as [[t|e] st1] eqn:Hg.
  - destruct (Subst.personalize t itemName buyerEmail) as [html|] eqn:Hp.
    + rewrite (render_and_dispatch_sends _ _ _ _ _ _ Hg Hp). apply dispatch_status.
    + rewrite (render_and_dispatch_throws _ _ _ _ _ Hg Hp). discriminate.
  - rewrite (render_and_dispatch_unavailable _ _ _ _ _ Hg).
    intros [= <- <-]. simpl. auto.
Qed.

(** The handler always answers: nothing escapes the catch-all. *)
Lemma handler_returns (rq : req) (st : state) :
  exists r, fst (handler rq st) = Return r.
Proof.
  unfold paypalWebhookHandler, try_catch.
  destruct (_ st) as [[r|e] st']; run; eauto.
Qed.

(** C1, as the code has it.  The first successful fetch, of a template
    that is not the empty string, stores it; from then on the template
    provider returns the stored value and leaves the state alone, whatever
    requests the process serves in between, so that two successful
    invocations in a row make exactly one fetch. *)
Theorem template_fetched_once (st st1 : state) (t : string) :
  present (cachedEmailTemplate st) = None ->
  get_template st = (Return t, st1) ->
  t <> "" ->
  cachedEmailTemplate st1 = Some t
  /\ template_fetches st1 = S (template_fetches st)
  /\ (forall st', cachedEmailTemplate st' = Some t ->
                  get_template st' = (Return t, st'))
  /\ (forall rqs,
        cachedEmailTemplate (serve JSON_parse network rqs st1) = Some t
        /\ template_fetches (serve JSON_parse network rqs st1)
           = S (template_fetches st))
  /\ (forall t2 st2,
        get_template st1 = (Return t2, st2) ->
        t2 = t /\ template_fetches st2 = S (template_fetches st)).
Proof.
  intros Hnone Hget Hne.
  rewrite (getEmailTemplate_uncached network st Hnone) in Hget.
  assert (Hst1 : st1 = State (Some t) (RESEND_API_KEY st)
                         (trace st ++ [Fetch (GET GITHUB_EMAIL_URL)])).
  { destruct (network _ _) as [|r]; [discriminate|].
    destruct (ok r); [| discriminate].
    destruct (content r); [| discriminate].
    now inversion Hget. }
  assert (Hc : cachedEmailTemplate st1 = Some t) by now subst st1.
  assert (Hf : template_fetches st1 = S (template_fetches st))
    by (subst st1; count_events).
  assert (Hhit : forall st', cachedEmailTemplate st' = Some t ->
                             present (cachedEmailTemplate st') = Some t)
    by (intros st' E; apply present_some; auto).
  repeat split; try assumption.
  - intros st' E. apply getEmailTemplate_cached. auto.
  - destruct (serve_keeps_cache rqs st1 t (Hhit _ Hc)). congruence.
  - destruct (serve_keeps_cache rqs st1 t (Hhit _ Hc)). congruence.
  - rewrite (getEmailTemplate_cached network st1 t (Hhit _ Hc)) in H. congruence.
  - rewrite (getEmailTemplate_cached network st1 t (Hhit _ Hc)) in H.
    inversion H; subst; assumption.
Qed.

(** C2.  When the handler reaches the template stage with nothing usable
    in the cache and the fetch fails (the transport fails, the status is
    not a success, or the body cannot be read), the request is answered
    500 with [{error: "Failed to fetch email template"}]; the cache holds
    what it held before, still nothing usable, no dispatch is made, and
    the next invocation of the template provider fetches again. *)
Theorem template_failure_not_cached (rq : req) (st : state) (payload : value) :
  payment_completed JSON_parse rq payload ->
  truthy (buyerEmail_of payload) = true ->
  present (cachedEmailTemplate st) = None ->
  template_fetch_fails (network (trace st) (GET GITHUB_EMAIL_URL)) = true ->
  fst (handler rq st)
  = Return (Res 500 (error_body "Failed to fetch email template"))
  /\ cachedEmailTemplate (snd (handler rq st)) = cachedEmailTemplate st
  /\ present (cachedEmailTemplate (snd (handler rq st))) = None
  /\ dispatches (snd (handler rq st)) = dispatches st
  /\ trace (snd (get_template (snd (handler rq st))))
     = (trace (snd (handler rq st)) ++ [Fetch (GET GITHUB_EMAIL_URL)])%list.
Proof.
  intros Hp Hb Hnone Hfail.
  destruct (getEmailTemplate_fails network st Hnone Hfail) as [e He].
  rewrite (handler_validated rq st payload Hp Hb).
  rewrite (try_catch_return _ _ _ _ _
             (render_and_dispatch_unavailable _ _ _ _ _ He)).
  simpl. repeat split; try assumption; try count_events.
  now apply getEmailTemplate_refetches.
Qed.

(** The substitution succeeds exactly when both values can be converted. *)
Lemma personalize_some (t : string) (itemName buyerEmail : value)
      (itemText emailText : string) :
  to_string itemName = Some itemText ->
  to_string buyerEmail = Some emailText ->
  Subst.personalize t itemName buyerEmail
  = Some (Subst.render t itemText emailText).
Proof. intros Hi Hb. unfold Subst.personalize. now rewrite Hi, Hb. Qed.

Lemma personalize_none (t : string) (itemName buyerEmail : value) :
  to_string itemName = None \/ to_string buyerEmail = None ->
  Subst.personalize t itemName buyerEmail = None.
Proof.
  unfold Subst.personalize. intros [H|H]; rewrite H; [reflexivity|].
  now destruct (to_string itemName).
Qed.

(** A validated request whose substitution throws: the catch-all answers,
    after the template stage, without a dispatch. *)
Lemma handler_substitution_throws (rq : req) (st st1 : state) (payload : value)
      (tmpl : string) :
  payment_completed JSON_parse rq payload ->
  truthy (buyerEmail_of payload) = true ->
  get_template st = (Return tmpl, st1) ->
  Subst.personalize tmpl (itemName_of payload) (buyerEmail_of payload) = None ->
  handler rq st
  = (Return (Res 500 (error_body "Internal Server Error")),
     after st1 (ConsoleError [Text "Webhook error:"; Thrown TypeError])).
Proof.
  intros Hp Hb Hg Hn.
  rewrite (handler_validated rq st payload Hp Hb).
  unfold try_catch. now rewrite (render_and_dispatch_throws _ _ _ _ _ Hg Hn).
Qed.

(** C9.  When the handler reaches the dispatch stage (the template is
    there, both order values have been written into it, the credential is
    configured) and the email provider answers with a non-success status,
    the request is answered 500 with [{error: "Failed to send email"}],
    whatever the provider's status and body are: the response is this
    constant, so nothing of the provider's answer is in it.  The body,
    when it can be read, is written to the console. *)
Theorem provider_rejection_generic (rq : req) (st st1 : state) (payload : value)
        (tmpl key itemText emailText : string) (r : http_response) :
  payment_completed JSON_parse rq payload ->
  truthy (buyerEmail_of payload) = true ->
  get_template st = (Return tmpl, st1) ->
  to_string (itemName_of payload) = Some itemText ->
  to_string (buyerEmail_of payload) = Some emailText ->
  present (RESEND_API_KEY st1) = Some key ->
  network (trace st1)
    (resend_request key itemText (buyerEmail_of payload)
       (Subst.render tmpl itemText emailText))
  = Resolved r ->
  ok r = false ->
  fst (handler rq st) = Return (Res 500 (error_body "Failed to send email"))
  /\ (forall t, content r = Some t ->
        In (ConsoleError [Text "Resend API error response:"; Text t])
           (trace (snd (handler rq st)))).
Proof.
  intros Hp Hb Hg Hi He Hk Hn Hok.
  rewrite (handler_validated rq st payload Hp Hb).
  rewrite (try_catch_return _ _ _ _ _
             (eq_trans (render_and_dispatch_sends _ _ _ _ _ _ Hg
                          (personalize_some tmpl _ _ _ _ Hi He))
                       (dispatch_rejected _ _ _ _ _ _ _ Hi Hk Hn Hok))).
  split; [reflexivity|].
  intros t Ht. rewrite Ht. unfold after; simpl.
  apply in_or_app. left. apply in_or_app. right. now left.
Qed.


End Pipeline.

(* ===================================================================== *)
(** ** Properties of the substitution                                     *)
(* ===================================================================== *)

Import Subst.

(** *** Strings *)

Lemma append_assoc (a b c : string) : (a ++ b) ++ c = a ++ b ++ c.
Proof. induction a as [|x a IH]; simpl; [reflexivity | now rewrite IH]. Qed.

Lemma length_drop (k : nat) (s : string) :
  String.length (drop k s) = String.length s - k.
Proof.
  revert s. induction k as [|k IH]; intros [|c s]; simpl; auto.
Qed.

Lemma prefix_nil (s : string) : prefix "" s = true.
Proof. now destruct s. Qed.

Lemma prefix_cons (x y : ascii) (a b : string) :
  prefix (String x a) (String y b) = true <-> x = y /\ prefix a b = true.
Proof.
  simpl. destruct (ascii_dec x y) as [E|E]; split; intros H;
    try tauto; try discriminate.
Qed.

Lemma prefix_append (a b : string) : prefix a (a ++ b) = true.
Proof.
  induction a as [|x a IH]; simpl; [apply prefix_nil|].
  now destruct (ascii_dec x x).
Qed.

Lemma prefix_length (a b : string) :
  prefix a b = true -> String.length a <= String.length b.
Proof.
  revert b. induction a as [|x a IH]; intros [|y b] H; simpl; try lia.
  - discriminate.
  - apply prefix_cons in H as [_ H]. apply IH in H. lia.
Qed.

Lemma prefix_weaken (a b c : string) :
  prefix a b = true -> prefix a (b ++ c) = true.
Proof.
  revert b. induction a as [|x a IH]; intros b H; [apply prefix_nil|].
  destruct b as [|y b]; [discriminate|].
  apply prefix_cons in H as [-> H]. simpl. destruct (ascii_dec y y); [|tauto].
  now apply IH.
Qed.

(** A prefix of [b ++ c] either lies within [b] or covers [b] and goes on
    into [c]. *)
Lemma prefix_split (a b c : string) :
  prefix a (b ++ c) = true ->
  prefix a b = true
  \/ (String.length b < String.length a
      /\ prefix (drop (String.length b) a) c = true).
Proof.
  revert b. induction a as [|x a IH]; intros b H; [left; apply prefix_nil|].
  destruct b as [|y b]; simpl in *.
  - right. split; [lia | assumption].
  - destruct (ascii_dec x y); [| discriminate].
    destruct (IH b H) as [L | [L R]]; [now left | right]. split; [lia | assumption].
Qed.

Lemma no_suffix_starts_spec (m w : string) (k : nat) :
  no_suffix_starts m w = true ->
  0 < k < String.length m ->
  prefix (drop k m) w = false.
Proof.
  unfold no_suffix_starts. rewrite forallb_forall. intros H Hk.
  apply negb_true_iff, H, in_seq. lia.
Qed.

(** An occurrence of [m] that starts inside [pre] and is followed by [w]
    lies entirely inside [pre]. *)
Lemma prefix_before (m w pre post : string) :
  no_suffix_starts m w = true ->
  String.length m <= String.length w ->
  pre <> "" ->
  prefix m (pre ++ w ++ post) = true ->
  prefix m pre = true.
Proof.
  intros Hns Hlen Hpre H.
  destruct (prefix_split _ _ _ H) as [L | [L R]]; [assumption|].
  exfalso.
  assert (Hk : 0 < String.length pre < String.length m)
    by (destruct pre; [congruence | simpl in *; lia]).
  destruct (prefix_split _ _ _ R) as [L' | [L' _]].
  - now rewrite (no_suffix_starts_spec m w _ Hns Hk) in L'.
  - rewrite length_drop in L'. lia.
Qed.

(** *** The scan *)

(** A replacement text without pattern stands for itself. *)
Lemma GetSubstitution_literal (matched before after template : string) :
  pattern_free template = true ->
  GetSubstitution matched before after template = template.
Proof.
  induction template as [|c t IH]; [reflexivity|].
  cbn [GetSubstitution pattern_free]. intros H.
  apply andb_true_iff in H as [Hc Ht]. specialize (IH Ht).
  destruct (Ascii.eqb c "$").
  - destruct t as [|d t']; [reflexivity|].
    destruct (Ascii.eqb d "$"); [discriminate|].
    destruct (Ascii.eqb d "&"); [discriminate|].
    destruct (Ascii.eqb d "`"); [discriminate|].
    destruct (Ascii.eqb d "'"); [discriminate|].
    now rewrite IH.
  - now rewrite IH.
Qed.

(** Text without dollar sign holds no pattern. *)
Lemma free_of_pattern_free (s : string) :
  free_of "$" s = true -> pattern_free s = true.
Proof.
  induction s as [|c s IH]; [reflexivity|].
  cbn [free_of pattern_free]. intros H.
  apply andb_true_iff in H as [Hc Hs]. rewrite (IH Hs), andb_true_r.
  now destruct (Ascii.eqb c "$").
Qed.

(** Where the marker does not occur nothing is replaced, whatever the
    replacement text. *)
Lemma replace_scan_absent (m v before s : string) :
  occurs m s = false -> replace_scan m v before 0 s = s.
Proof.
  revert before. induction s as [|c s IH]; intros before H; [reflexivity|].
  simpl in H. apply orb_false_iff in H as [Hp Ho].
  cbn [replace_scan]. change (prefix m (String c s)) with
    (match m with
     | "" => true
     | String a m' => if ascii_dec a c then prefix m' s else false
     end) in *.
  rewrite Hp. now rewrite IH.
Qed.

Section Scan.

Variables m v : string.
Hypothesis v_literal : pattern_free v = true.

(** Without patterns in the replacement text, the part of the subject
    already passed plays no role. *)
Lemma replace_scan_before (b b' : string) (k : nat) (s : string) :
  replace_scan m v b k s = replace_scan m v b' k s.
Proof.
  revert b b' k. induction s as [|c s IH]; intros b b' k; [reflexivity|].
  cbn [replace_scan]. destruct k as [|k]; [| apply IH].
  rewrite !(GetSubstitution_literal _ _ _ _ v_literal).
  destruct (prefix m (String c s)); f_equal; apply IH.
Qed.

Local Notation "'scan'" := (replace_scan m v "").

Lemma scan_cons_skip (c : ascii) (k : nat) (s : string) :
  scan (S k) (String c s) = scan k s.
Proof. cbn [replace_scan]. apply replace_scan_before. Qed.

Lemma scan_cons_match (c : ascii) (s : string) :
  prefix m (String c s) = true ->
  scan 0 (String c s) = v ++ scan (String.length m - 1) s.
Proof.
  intros H. cbn [replace_scan].
  change (match m with
          | "" => true
          | String a m' => if ascii_dec a c then prefix m' s else false
          end) with (prefix m (String c s)).
  rewrite H, (GetSubstitution_literal _ _ _ _ v_literal).
  f_equal. apply replace_scan_before.
Qed.

Lemma scan_cons_keep (c : ascii) (s : string) :
  prefix m (String c s) = false ->
  scan 0 (String c s) = String c (scan 0 s).
Proof.
  intros H. cbn [replace_scan].
  change (match m with
          | "" => true
          | String a m' => if ascii_dec a c then prefix m' s else false
          end) with (prefix m (String c s)).
  rewrite H. f_equal. apply replace_scan_before.
Qed.

(** Skipping exactly the text [x]. *)
Lemma scan_skip (x s : string) : scan (String.length x) (x ++ s) = scan 0 s.
Proof.
  induction x as [|c x IH]; simpl String.length; simpl append;
    [reflexivity | now rewrite scan_cons_skip].
Qed.

End Scan.

(** At an occurrence of the marker the replacement text is produced and
    the scan resumes after the occurrence. *)
Lemma scan_marker (m v s : string) :
  pattern_free v = true ->
  m <> "" ->
  replace_scan m v "" 0 (m ++ s) = v ++ replace_scan m v "" 0 s.
Proof.
  intros Hv Hm. destruct m as [|c m']; [congruence|].
  change (String c m' ++ s) with (String c (m' ++ s)).
  rewrite (scan_cons_match _ _ Hv).
  - replace (String.length (String c m') - 1) with (String.length m')
      by (simpl; lia).
    now rewrite (scan_skip _ _ Hv).
  - change (String c (m' ++ s)) with (String c m' ++ s). apply prefix_append.
Qed.


(** *** Occurrences are replaced wherever they stand *)

Section Around.

(** The scan for [m] across a word [w] which no occurrence of [m] can
    straddle from the left, and which the scan turns into [out]. *)
Variables m v w out : string.
Hypothesis v_literal : pattern_free v = true.
Hypothesis no_straddle : no_suffix_starts m w = true.
Hypothesis not_longer : String.length m <= String.length w.
Hypothesis across :
  forall post,
    replace_scan m v "" 0 (w ++ post) = out ++ replace_scan m v "" 0 post.

Lemma scan_around (pre post : string) (k : nat) :
  k <= String.length pre ->
  replace_scan m v "" k (pre ++ w ++ post)
  = replace_scan m v "" k pre ++ out ++ replace_scan m v "" 0 post.
Proof.
  revert k. induction pre as [|c pre IH]; intros k Hk.
  - simpl in Hk. replace k with 0 by lia. apply across.
  - change (String c pre ++ w ++ post) with (String c (pre ++ w ++ post)).
    destruct k as [|k].
    + destruct (prefix m (String c (pre ++ w ++ post))) eqn:P.
      * assert (P' : prefix m (String c pre) = true)
          by (apply (prefix_before m w _ post); [assumption .. | discriminate | exact P]).
        rewrite (scan_cons_match _ _ v_literal _ _ P).
        rewrite (scan_cons_match _ _ v_literal _ _ P').
        apply prefix_length in P'. simpl in P'.
        rewrite IH by lia. now rewrite append_assoc.
      * assert (P' : prefix m (String c pre) = false).
        { destruct (prefix m (String c pre)) eqn:Q; [| reflexivity].
          apply (prefix_weaken _ _ (w ++ post)) in Q.
          change (String c pre ++ w ++ post) with (String c (pre ++ w ++ post)) in Q.
          congruence. }
        rewrite (scan_cons_keep _ _ v_literal _ _ P).
        rewrite (scan_cons_keep _ _ v_literal _ _ P').
        rewrite IH by lia. reflexivity.
    + rewrite !(scan_cons_skip _ _ v_literal). simpl in Hk. apply IH. lia.
Qed.

End Around.

(** Every occurrence of a marker that cannot overlap itself is replaced:
    the subject around the occurrence is treated on its own. *)
Lemma replace_global_occurrence (m v pre post : string) :
  pattern_free v = true ->
  m <> "" ->
  no_suffix_starts m m = true ->
  replace_global m v (pre ++ m ++ post)
  = replace_global m v pre ++ v ++ replace_global m v post.
Proof.
  intros Hv Hm Hns. unfold replace_global.
  apply scan_around; auto with arith.
  intros post'. now apply scan_marker.
Qed.

Lemma replace_global_absent (m v s : string) :
  occurs m s = false -> replace_global m v s = s.
Proof. apply replace_scan_absent. Qed.

(** Text free of the character the marker starts with goes through. *)
Lemma replace_global_literal (c : ascii) (m' v lit s : string) :
  pattern_free v = true ->
  free_of c lit = true ->
  replace_global (String c m') v (lit ++ s)
  = lit ++ replace_global (String c m') v s.
Proof.
  intros Hv. unfold replace_global.
  induction lit as [|d lit IH]; simpl free_of; intros H; [reflexivity|].
  apply andb_true_iff in H as [Hd H].
  change (String d lit ++ s) with (String d (lit ++ s)).
  rewrite (scan_cons_keep _ _ Hv).
  - now rewrite IH.
  - simpl. destruct (ascii_dec c d) as [->|]; [| reflexivity].
    now rewrite Ascii.eqb_refl in Hd.
Qed.

(** *** The two markers *)

Lemma itemName_marker_unbordered :
  no_suffix_starts itemName_marker itemName_marker = true.
Proof. reflexivity. Qed.

Lemma buyerEmail_marker_unbordered :
  no_suffix_starts buyerEmail_marker buyerEmail_marker = true.
Proof. reflexivity. Qed.

Lemma itemName_marker_clear_of_buyerEmail :
  no_suffix_starts itemName_marker buyerEmail_marker = true.
Proof. reflexivity. Qed.

(** The scan for [{{itemName}}] passes over [{{buyerEmail}}] unchanged. *)
Lemma itemName_scan_across_buyerEmail (v post : string) :
  pattern_free v = true ->
  replace_scan itemName_marker v "" 0 (buyerEmail_marker ++ post)
  = buyerEmail_marker ++ replace_scan itemName_marker v "" 0 post.
Proof.
  intros Hv. cbn. now rewrite (replace_scan_before _ _ Hv "{{buyerEmail}}" "").
Qed.

Lemma itemName_marker_occurrence (v pre post : string) :
  pattern_free v = true ->
  replace_global itemName_marker v (pre ++ itemName_marker ++ post)
  = replace_global itemName_marker v pre ++ v
    ++ replace_global itemName_marker v post.
Proof.
  intros Hv. apply replace_global_occurrence;
    [assumption | discriminate | apply itemName_marker_unbordered].
Qed.

Lemma buyerEmail_marker_occurrence (v pre post : string) :
  pattern_free v = true ->
  replace_global buyerEmail_marker v (pre ++ buyerEmail_marker ++ post)
  = replace_global buyerEmail_marker v pre ++ v
    ++ replace_global buyerEmail_marker v post.
Proof.
  intros Hv. apply replace_global_occurrence;
    [assumption | discriminate | apply buyerEmail_marker_unbordered].
Qed.

(** The first pass leaves every [{{buyerEmail}}] of the template in
    place. *)
Lemma itemName_pass_keeps_buyerEmail (v pre post : string) :
  pattern_free v = true ->
  replace_global itemName_marker v (pre ++ buyerEmail_marker ++ post)
  = replace_global itemName_marker v pre ++ buyerEmail_marker
    ++ replace_global itemName_marker v post.
Proof.
  intros Hv. unfold replace_global.
  apply scan_around; [assumption | | | | apply Nat.le_0_l].
  - apply itemName_marker_clear_of_buyerEmail.
  - simpl. lia.
  - intros post'. now apply itemName_scan_across_buyerEmail.
Qed.

(** *** Templates made of literal text and markers *)

Lemma free_of_append (c : ascii) (a b : string) :
  free_of c (a ++ b) = free_of c a && free_of c b.
Proof.
  induction a as [|d a IH]; simpl; [reflexivity|].
  now rewrite IH, andb_assoc.
Qed.

(** A text without the first character of the marker has no occurrence
    of it. *)
Lemma free_of_occurs (c : ascii) (m' s : string) :
  free_of c s = true -> occurs (String c m') s = false.
Proof.
  induction s as [|d s IH]; simpl; [reflexivity|].
  intros H. apply andb_true_iff in H as [Hd H].
  destruct (ascii_dec c d) as [->|]; [now rewrite Ascii.eqb_refl in Hd|].
  now apply IH.
Qed.

Lemma assemble_free_of (c : ascii) (i b : string) (ps : list piece) :
  literals_free_of c ps = true ->
  free_of c i = true ->
  free_of c b = true ->
  free_of c (assemble i b ps) = true.
Proof.
  intros Hps Hi Hb. induction ps as [|p ps IH]; [reflexivity|].
  simpl in Hps. apply andb_true_iff in Hps as [Hp Hps].
  destruct p; simpl; rewrite free_of_append, (IH Hps), andb_true_r; assumption.
Qed.

(** The first pass over such a template: the literal text is kept, each
    [{{itemName}}] becomes the item name, each [{{buyerEmail}}] stays. *)
Lemma itemName_pass_pieces (i : string) (ps : list piece) :
  pattern_free i = true ->
  literals_free_of "{" ps = true ->
  replace_global itemName_marker i (template_of ps)
  = assemble i buyerEmail_marker ps.
Proof.
  intros Hi Hps. unfold template_of.
  induction ps as [|p ps IH]; [reflexivity|].
  simpl in Hps. apply andb_true_iff in Hps as [Hp Hps].
  destruct p; cbn [assemble].
  - unfold itemName_marker at 1.
    rewrite (replace_global_literal _ _ _ _ _ Hi Hp).
    fold itemName_marker. now rewrite (IH Hps).
  - unfold replace_global. rewrite (scan_marker _ _ _ Hi); [| discriminate].
    fold (replace_global itemName_marker i
            (assemble itemName_marker buyerEmail_marker ps)).
    now rewrite (IH Hps).
  - unfold replace_global. rewrite (itemName_scan_across_buyerEmail _ _ Hi).
    fold (replace_global itemName_marker i
            (assemble itemName_marker buyerEmail_marker ps)).
    now rewrite (IH Hps).
Qed.

(** The second pass: each remaining [{{buyerEmail}}] becomes the buyer
    email; the item names already inserted are kept when they hold no
    brace. *)
Lemma buyerEmail_pass_pieces (i b : string) (ps : list piece) :
  pattern_free b = true ->
  free_of "{" i = true ->
  literals_free_of "{" ps = true ->
  replace_global buyerEmail_marker b (assemble i buyerEmail_marker ps)
  = assemble i b ps.
Proof.
  intros Hb Hi Hps.
  induction ps as [|p ps IH]; [reflexivity|].
  simpl in Hps. apply andb_true_iff in Hps as [Hp Hps].
  destruct p; cbn [assemble].
  - unfold buyerEmail_marker at 1.
    rewrite (replace_global_literal _ _ _ _ _ Hb Hp).
    fold buyerEmail_marker. now rewrite (IH Hps).
  - unfold buyerEmail_marker at 1.
    rewrite (replace_global_literal _ _ _ _ _ Hb Hi).
    fold buyerEmail_marker. now rewrite (IH Hps).
  - unfold replace_global. rewrite (scan_marker _ _ _ Hb); [| discriminate].
    fold (replace_global buyerEmail_marker b (assemble i buyerEmail_marker ps)).
    now rewrite (IH Hps).
Qed.

(** Where neither marker occurs, the two replacements change nothing. *)
Lemma render_settled (s itemText emailText : string) :
  occurs itemName_marker s = false ->
  occurs buyerEmail_marker s = false ->
  render s itemText emailText = s.
Proof.
  intros HI HB. unfold render.
  rewrite (replace_global_absent _ _ _ HI). now apply replace_global_absent.
Qed.

(** The substitution gives a result exactly when both values can be
    converted; the result is then that of the two replacements. *)
Lemma personalize_inv (t : string) (itemName buyerEmail : value) (out : string) :
  personalize t itemName buyerEmail = Some out ->
  exists itemText emailText,
    to_string itemName = Some itemText
    /\ to_string buyerEmail = Some emailText
    /\ out = render t itemText emailText.
Proof.
  unfold personalize.
  destruct (to_string itemName) as [itemText|]; [| discriminate].
  destruct (to_string buyerEmail) as [emailText|]; [| discriminate].
  intros [= <-]. eauto.
Qed.

Lemma personalize_strings (t itemName buyerEmail : string) :
  personalize t (Str itemName) (Str buyerEmail)
  = Some (render t itemName buyerEmail).
Proof. reflexivity. Qed.

(** Whether the substitution throws depends on the two values only. *)
Lemma personalize_settled (s t : string) (itemName buyerEmail : value)
      (out : string) :
  personalize t itemName buyerEmail = Some out ->
  occurs itemName_marker s = false ->
  occurs buyerEmail_marker s = false ->
  personalize s itemName buyerEmail = Some s.
Proof.
  intros H HI HB. destruct (personalize_inv _ _ _ _ H) as (si & sb & Hi & Hb & _).
  unfold personalize. rewrite Hi, Hb. f_equal. now apply render_settled.
Qed.

(** *** The claims on the substitution *)



(* ===================================================================== *)
(** ** Where the specification and the code part                          *)
(* ===================================================================== *)




(** Two successful invocations of the template provider in a row can make
    two fetches: an empty template is stored, but the guard of the cache
    does not take the empty string for a cached value. *)
Lemma empty_template_fetched_again :
  ~ (forall network st t1 st1 t2 st2,
        cachedEmailTemplate st = None ->
        getEmailTemplate network st = (Return t1, st1) ->
        getEmailTemplate network st1 = (Return t2, st2) ->
        template_fetches st2 = S (template_fetches st)).
Proof.
  intros H.
  specialize (H Scenario.empty_template (fresh Scenario.key)
                "" (State (Some "") Scenario.key [Fetch (GET GITHUB_EMAIL_URL)])
                "" (State (Some "") Scenario.key
                      [Fetch (GET GITHUB_EMAIL_URL); Fetch (GET GITHUB_EMAIL_URL)])
                eq_refl eq_refl eq_refl).
  vm_compute in H. discriminate.
Qed.

(* ===================================================================== *)
(** ** The scenarios of the specification, run                            *)
(* ===================================================================== *)

(** The end-to-end scenario: the event for an "E-book" is answered 200
    with the provider's id, after one template fetch and one dispatch. *)
Example end_to_end :
  paypalWebhookHandler Scenario.parse Scenario.all_up
    (Scenario.post Scenario.paid_event) (fresh Scenario.key)
  = (Return (Res 200 (Obj [("message", Str "Email sent to buyer@x.com");
                           ("resendId", Str "em_123")])),
     State (Some Scenario.template) Scenario.key
       [Fetch (GET GITHUB_EMAIL_URL);
        Fetch (POST RESEND_URL "Bearer re_test_key"
                 (Email RESEND_EMAIL (Str "buyer@x.com")
                    "Your E-book is ready!"
                    "Item: E-book / To: buyer@x.com"))]).
Proof. reflexivity. Qed.

(** The substitution example of the specification. *)
Example personalize_spec_example :
  personalize "Hi {{buyerEmail}}, your {{itemName}} is ready, {{buyerEmail}}!"
    (Str "Widget") (Str "a@b.com")
  = Some "Hi a@b.com, your Widget is ready, a@b.com!".
Proof. reflexivity. Qed.

(** Two requests in a row: one template fetch, two dispatches. *)
Example two_requests_one_fetch :
  let st := serve Scenario.parse Scenario.all_up
              [Scenario.post Scenario.paid_event;
               Scenario.post Scenario.paid_event_no_units]
              (fresh Scenario.key) in
  template_fetches st = 1 /\ dispatches st = 2.
Proof. split; reflexivity. Qed.

(** The replacement patterns of [replace] at work. *)
Example personalize_dollar_patterns :
  personalize "[{{itemName}}] <{{buyerEmail}}>"
    (Str "a$$b$&c") (Str "x$`y$'z$1")
  = Some "[a$b{{itemName}}c] <x[a$b{{itemName}}c] <y>z$1>".
Proof. reflexivity. Qed.

(** A dollar sign that starts no pattern is text like any other: the
    values go in as they are. *)
Example personalize_plain_dollar :
  personalize "Get {{itemName}}" (Str "$10 voucher for {{buyerEmail}}")
    (Str "big$pender@x.com")
  = Some "Get $10 voucher for big$pender@x.com".
Proof. reflexivity. Qed.

(** Values that are not strings are converted: a number by its digits, an
    array by its elements joined with commas.  An object that has a
    [toString] member of its own (never a function, in decoded JSON)
    cannot be converted, alone or as an element of an array, and [replace]
    throws whether or not the marker occurs. *)
Example personalize_converts :
  personalize "{{itemName}} for {{buyerEmail}}"
    (Num "42") (Arr [Str "a@b.com"; Null; Str "c@d.com"])
  = Some "42 for a@b.com,,c@d.com"
  /\ personalize "{{itemName}}" (Obj [("sku", Str "x")]) (Str "a@b.com")
     = Some "[object Object]"
  /\ personalize "no marker" (Obj [("toString", Str "x")]) (Str "a@b.com") = None
  /\ personalize "no marker" (Str "Widget") (Arr [Obj [("toString", Null)]]) = None.
Proof. repeat split; reflexivity. Qed.

(** Matches are found from left to right and do not overlap; replaced
    text is not scanned again. *)
Example replace_global_leftmost :
  replace_global "aa" "b" "aaa" = "ba"
  /\ replace_global "ab" "aab" "abab" = "aabaab".
Proof. split; reflexivity. Qed.

(** An email address that cannot be converted to a string: the template
    is fetched, the substitution throws, the catch-all answers; nothing is
    sent and the credential is not looked at. *)
Example odd_email_internal_error :
  paypalWebhookHandler Scenario.parse Scenario.all_up
    (Scenario.post Scenario.paid_event_odd_email) (fresh None)
  = (Return (Res 500 (error_body "Internal Server Error")),
     State (Some Scenario.template) None
       [Fetch (GET GITHUB_EMAIL_URL);
        ConsoleError [Text "Webhook error:"; Thrown TypeError]]).
Proof. reflexivity. Qed.

(** A body that decodes to [null] ends in the catch-all. *)
Example null_body_internal_error :
  fst (paypalWebhookHandler Scenario.parse Scenario.all_up
         (Scenario.post (Str "null")) (fresh Scenario.key))
  = Return (Res 500 (error_body "Internal Server Error")).
Proof. reflexivity. Qed.

(* ===================================================================== *)
(** ** The superseded variants, run                                       *)
(* ===================================================================== *)

(** [pg.js], first module: the parse is not guarded, a malformed body ends
    in the catch-all. *)
Example pg_first_malformed_body :
  fst (Superseded.pg_first_paypalWebhookHandler Scenario.parse Scenario.all_up
         (Scenario.post (Str "{oops")) (fresh Scenario.key))
  = Return (Res 500 (error_body "Internal Server Error")).
Proof. reflexivity. Qed.

(** The first unnamed file does not look at the provider's status: a
    refusal is reported to the caller as a success. *)
Example part_000_provider_refusal :
  fst (Superseded.part_000_handler Scenario.parse Scenario.provider_down
         (Scenario.post Scenario.paid_event) (fresh Scenario.key))
  = Return (Res 200 (Obj [("message", Str "Email sent to buyer@x.com");
                          ("resendId", Undefined)])).
Proof. reflexivity. Qed.

Example part_000_malformed_body :
  fst (Superseded.part_000_handler Scenario.parse Scenario.all_up
         (Scenario.post (Str "{oops")) (fresh Scenario.key))
  = Return (Res 500 (error_body "Internal Server Error")).
Proof. reflexivity. Qed.

(** The second unnamed file guards the parse, but lets the failures of the
    template and of the provider reach the catch-all. *)
Example part_001_malformed_body :
  fst (Superseded.part_001_paypalWebhookHandler Scenario.parse Scenario.all_up
         (Scenario.post (Str "{oops")) (fresh Scenario.key))
  = Return (Res 400 (error_body "Invalid JSON body")).
Proof. reflexivity. Qed.

Example part_001_provider_refusal :
  fst (Superseded.part_001_paypalWebhookHandler Scenario.parse Scenario.provider_down
         (Scenario.post Scenario.paid_event) (fresh Scenario.key))
  = Return (Res 500 (error_body "Internal Server Error")).
Proof. reflexivity. Qed.

Example part_001_template_down :
  fst (Superseded.part_001_paypalWebhookHandler Scenario.parse Scenario.template_down
         (Scenario.post Scenario.paid_event) (fresh Scenario.key))
  = Return (Res 500 (error_body "Internal Server Error")).
Proof. reflexivity. Qed.

(** [pg.js], first module, answers a refusal like the handler above. *)
Example pg_first_provider_refusal :
  fst (Superseded.pg_first_paypalWebhookHandler Scenario.parse Scenario.provider_down
         (Scenario.post Scenario.paid_event) (fresh Scenario.key))
  = Return (Res 500 (error_body "Failed to send email")).
Proof. reflexivity. Qed.

(* ===================================================================== *)
(** ** The theorems at concrete requests                                  *)
(* ===================================================================== *)

Lemma non_post_method_not_allowed_witness :
  paypalWebhookHandler Scenario.parse Scenario.all_up
    (Req (Str "GET") Undefined) (fresh Scenario.key)
  = (Return (Res 405 (error_body "Method Not Allowed")), fresh Scenario.key).
Proof.
  apply (non_post_method_not_allowed Scenario.parse Scenario.all_up
           (Req (Str "GET") Undefined) (fresh Scenario.key)).
  discriminate.
Defined.

Lemma malformed_body_rejected_witness :
  paypalWebhookHandler Scenario.parse Scenario.all_up
    (Scenario.post (Str "{oops")) (fresh Scenario.key)
  = (Return (Res 400 (error_body "Invalid JSON body")), fresh Scenario.key).
Proof.
  apply (malformed_body_rejected Scenario.parse Scenario.all_up
           (Scenario.post (Str "{oops")) (fresh Scenario.key) "{oops");
    reflexivity.
Defined.

Lemma other_event_ignored_witness :
  paypalWebhookHandler Scenario.parse Scenario.all_up
    (Scenario.post Scenario.refund_event) (fresh Scenario.key)
  = (Return (Res 200 (message_body "Ignored non-payment event")),
     fresh Scenario.key).
Proof.
  apply (other_event_ignored Scenario.parse Scenario.all_up
           (Scenario.post Scenario.refund_event) (fresh Scenario.key)
           Scenario.refund_event).
  - split; reflexivity.
  - reflexivity.
  - discriminate.
Defined.

Lemma missing_buyer_email_rejected_witness :
  paypalWebhookHandler Scenario.parse Scenario.all_up
    (Scenario.post Scenario.paid_event_no_payer) (fresh Scenario.key)
  = (Return (Res 400 (error_body "Buyer email not found in event")),
     fresh Scenario.key).
Proof.
  apply (missing_buyer_email_rejected Scenario.parse Scenario.all_up
           (Scenario.post Scenario.paid_event_no_payer) (fresh Scenario.key)
           Scenario.paid_event_no_payer).
  - repeat split; reflexivity.
  - reflexivity.
Defined.

Lemma template_fetched_once_witness :
  template_fetches
    (serve Scenario.parse Scenario.all_up
       [Scenario.post Scenario.paid_event; Scenario.post Scenario.paid_event]
       (State (Some Scenario.template) Scenario.key [Fetch (GET GITHUB_EMAIL_URL)]))
  = 1.
Proof.
  destruct (template_fetched_once Scenario.parse Scenario.all_up
              (fresh Scenario.key)
              (State (Some Scenario.template) Scenario.key
                 [Fetch (GET GITHUB_EMAIL_URL)])
              Scenario.template eq_refl eq_refl)
    as (_ & _ & _ & H & _).
  - discriminate.
  - apply H.
Defined.

Lemma template_failure_not_cached_witness :
  fst (paypalWebhookHandler Scenario.parse Scenario.template_down
         (Scenario.post Scenario.paid_event) (fresh Scenario.key))
  = Return (Res 500 (error_body "Failed to fetch email template")).
Proof.
  apply (template_failure_not_cached Scenario.parse Scenario.template_down
           (Scenario.post Scenario.paid_event) (fresh Scenario.key)
           Scenario.paid_event).
  - repeat split; reflexivity.
  - reflexivity.
  - reflexivity.
  - reflexivity.
Defined.


Lemma provider_rejection_generic_witness :
  fst (paypalWebhookHandler Scenario.parse Scenario.provider_down
         (Scenario.post Scenario.paid_event) (fresh Scenario.key))
  = Return (Res 500 (error_body "Failed to send email")).
Proof.
  apply (provider_rejection_generic Scenario.parse Scenario.provider_down
           (Scenario.post Scenario.paid_event) (fresh Scenario.key)
           (State (Some Scenario.template) Scenario.key
              [Fetch (GET GITHUB_EMAIL_URL)])
           Scenario.paid_event Scenario.template "re_test_key"
           "E-book" "buyer@x.com"
           (HttpResponse 422 (Some Scenario.provider_refusal)));
    try reflexivity.
  repeat split; reflexivity.
Defined.



(* ===================================================================== *)
(** ** Further properties of the handler                                  *)
(* ===================================================================== *)

Lemma strict_neq_str_false (v : value) (lit : string) :
  strict_neq_str v lit = false -> v = Str lit.
Proof.
  destruct v; simpl; try discriminate.
  destruct (String.eqb_spec s lit) as [->|]; [reflexivity | discriminate].
Qed.

Lemma strict_neq_str_true (v : value) (lit : string) :
  strict_neq_str v lit = true -> v <> Str lit.
Proof.
  intros H ->. now rewrite strict_neq_str_same in H.
Qed.

Section Outcomes.

Variable JSON_parse : string -> option value.
Variable network : list event -> request -> fetch_result.

Local Notation "'handler'" := (paypalWebhookHandler JSON_parse network).
Local Notation "'get_template'" := (getEmailTemplate network).
Local Notation "'send'" := (dispatch JSON_parse network).
Local Notation "'catch_all'" :=
  (fun error =>
     bind (console_error [Text "Webhook error:"; Thrown error])
          (fun _ => ret (Res 500 (error_body "Internal Server Error")))).

(** The dispatch stage, outcome by outcome. *)
Lemma dispatch_outcomes (itemName buyerEmail : value) (html : string)
      (st : state) :
  send itemName buyerEmail html st
  = match present (RESEND_API_KEY st) with
    | None => (Return (Res 500 (error_body "Resend API key not configured")), st)
    | Some key =>
        match to_string itemName with
        | None =>
            (Return (Res 500 (error_body "Failed to send email")),
             after st
               (ConsoleError [Text "Failed to send email via Resend:";
                              Thrown TypeError]))
        | Some itemText =>
            let sent :=
              after st (Fetch (resend_request key itemText buyerEmail html)) in
            let failed e :=
              (Return (Res 500 (error_body "Failed to send email")),
               after sent
                 (ConsoleError [Text "Failed to send email via Resend:"; Thrown e])) in
            match network (trace st)
                    (resend_request key itemText buyerEmail html) with
            | Rejected => failed FetchError
            | Resolved r =>
                if ok r then
                  match content r with
                  | None => failed FetchError
                  | Some t =>
                      match JSON_parse t with
                      | None => failed SyntaxError
                      | Some resendResult =>
                          match to_string buyerEmail with
                          | None => (Throw TypeError, sent)
                          | Some emailText =>
                              if nullish resendResult then (Throw TypeError, sent)
                              else
                                (Return
                                   (Res 200
                                      (Obj [("message",
                                             Str ("Email sent to " ++ emailText));
                                            ("resendId", member resendResult "id")])),
                                 sent)
                          end
                      end
                  end
                else
                  match content r with
                  | None => failed FetchError
                  | Some t =>
                      (Return (Res 500 (error_body "Failed to send email")),
                       after (after sent
                                (ConsoleError [Text "Resend API error response:";
                                               Text t]))
                         (ConsoleError
                            [Text "Failed to send email via Resend:";
                             Thrown (Error ("Resend API error: "
                                            ++ Z_to_string (status r)))]))
                  end
            end
        end
    end.
Proof.
  unfold dispatch, fetch, json. mstep.
  destruct (present (RESEND_API_KEY st)) as [key|]; [| reflexivity].
  destruct (to_string itemName) as [itemText|]; [| reflexivity].
  cbv beta iota zeta.
  destruct (network _ _) as [|r]; [reflexivity|].
  destruct (ok r); simpl.
  - destruct (content r) as [t|]; [| reflexivity].
    destruct (JSON_parse t) as [v|]; [| reflexivity].
    destruct (to_string buyerEmail); [| reflexivity].
    now destruct (nullish v).
  - now destruct (content r).
Qed.

(** The handler up to the end of validation, case by case. *)
Lemma handler_cases (rq : req) (st : state) :
  (method rq <> Str "POST"
   /\ handler rq st = (Return (Res 405 (error_body "Method Not Allowed")), st))
  \/ (method rq = Str "POST" /\ decode JSON_parse (body rq) = None
      /\ handler rq st = (Return (Res 400 (error_body "Invalid JSON body")), st))
  \/ (exists payload,
        post_of JSON_parse rq payload /\ nullish payload = true
        /\ handler rq st
           = (Return (Res 500 (error_body "Internal Server Error")),
              after st (ConsoleError [Text "Webhook error:"; Thrown TypeError])))
  \/ (exists payload,
        post_of JSON_parse rq payload /\ nullish payload = false
        /\ member payload "event_type" <> Str PAYMENT_COMPLETED
        /\ handler rq st
           = (Return (Res 200 (message_body "Ignored non-payment event")), st))
  \/ (exists payload,
        payment_completed JSON_parse rq payload
        /\ truthy (buyerEmail_of payload) = false
        /\ handler rq st
           = (Return (Res 400 (error_body "Buyer email not found in event")), st))
  \/ (exists payload,
        payment_completed JSON_parse rq payload
        /\ truthy (buyerEmail_of payload) = true
        /\ handler rq st
           = try_catch
               (render_and_dispatch JSON_parse network
                  (itemName_of payload) (buyerEmail_of payload))
               catch_all st).
Proof.
  destruct (strict_neq_str (method rq) "POST") eqn:Hm.
  { left. split; [now apply strict_neq_str_true|].
    unfold paypalWebhookHandler, try_catch. now rewrite Hm. }
  right. apply strict_neq_str_false in Hm.
  destruct (decode JSON_parse (body rq)) as [payload|] eqn:Hd.
  2:{ left. repeat split; try assumption.
      unfold paypalWebhookHandler, try_catch.
      now rewrite Hm, strict_neq_str_same, Hd. }
  right.
  destruct (nullish payload) eqn:Hn.
  { left. exists payload. repeat split; try assumption.
    unfold paypalWebhookHandler, try_catch.
    rewrite Hm, strict_neq_str_same, Hd. unfold bind, get. now rewrite Hn. }
  right.
  destruct (strict_neq_str (member payload "event_type") PAYMENT_COMPLETED) eqn:He.
  { left. exists payload. repeat split; try assumption.
    - now apply strict_neq_str_true.
    - unfold paypalWebhookHandler, try_catch.
      rewrite Hm, strict_neq_str_same, Hd. unfold bind, get. rewrite Hn.
      unfold ret. now rewrite He. }
  right. apply strict_neq_str_false in He.
  assert (Hp : payment_completed JSON_parse rq payload) by (repeat split; assumption).
  destruct (truthy (buyerEmail_of payload)) eqn:Hb.
  - right. exists payload. split; [assumption|]. split; [assumption|].
    exact (handler_validated JSON_parse network rq st payload Hp Hb).
  - left. exists payload. split; [assumption|]. split; [assumption|].
    exact (falsy_buyer_rejected JSON_parse network rq st payload Hp Hb).
Qed.

(** Past validation, once the template is there and the two values are
    written into it, the handler is the dispatch stage under the
    catch-all. *)
Lemma handler_dispatching (rq : req) (st st1 : state) (payload : value)
      (tmpl itemText emailText : string) :
  payment_completed JSON_parse rq payload ->
  truthy (buyerEmail_of payload) = true ->
  get_template st = (Return tmpl, st1) ->
  to_string (itemName_of payload) = Some itemText ->
  to_string (buyerEmail_of payload) = Some emailText ->
  handler rq st
  = try_catch
      (send (itemName_of payload) (buyerEmail_of payload)
         (Subst.render tmpl itemText emailText))
      catch_all st1.
Proof.
  intros Hp Hb Hg Hi He.
  rewrite (handler_validated JSON_parse network rq st payload Hp Hb).
  unfold try_catch.
  now rewrite (render_and_dispatch_sends JSON_parse network _ _ _ _ _ _ Hg
                 (personalize_some tmpl _ _ _ _ Hi He)).
Qed.

(** The template provider never calls the email provider and never
    touches the credential. *)
Lemma getEmailTemplate_frame (st : state) :
  dispatches (snd (get_template st)) = dispatches st
  /\ RESEND_API_KEY (snd (get_template st)) = RESEND_API_KEY st.
Proof.
  destruct (present (cachedEmailTemplate st)) as [t|] eqn:H.
  - now rewrite (getEmailTemplate_cached network st t H).
  - rewrite (getEmailTemplate_uncached network st H).
    destruct (network _ _) as [|r]; [| destruct (ok r); [destruct (content r) |]];
      simpl; split; try reflexivity; count_events.
Qed.

(** X1.  A payment-completed event with a buyer email, served when the
    template is available and both order values can be converted to
    strings but [RESEND_API_KEY] is unset or empty, is answered 500 with
    [{error: "Resend API key not configured"}]; the test comes after the
    template stage (the state is the one the template provider left) and
    before any call to the email provider. *)
Theorem missing_credential_rejected (rq : req) (st st1 : state)
        (payload : value) (tmpl itemText emailText : string) :
  payment_completed JSON_parse rq payload ->
  truthy (buyerEmail_of payload) = true ->
  get_template st = (Return tmpl, st1) ->
  to_string (itemName_of payload) = Some itemText ->
  to_string (buyerEmail_of payload) = Some emailText ->
  present (RESEND_API_KEY st1) = None ->
  handler rq st
  = (Return (Res 500 (error_body "Resend API key not configured")), st1)
  /\ dispatches (snd (handler rq st)) = dispatches st.
Proof.
  intros Hp Hb Hg Hi He Hk.
  assert (E : handler rq st
              = (Return (Res 500 (error_body "Resend API key not configured")), st1)).
  { rewrite (handler_dispatching rq st st1 payload tmpl _ _ Hp Hb Hg Hi He).
    unfold try_catch. rewrite dispatch_outcomes, Hk. reflexivity. }
  rewrite E. split; [reflexivity|]. simpl.
  pose proof (getEmailTemplate_frame st) as [Hd _]. now rewrite Hg in Hd.
Qed.

(** X2.  A payment-completed event with a buyer email, served with the
    template and the credential available, order values that can be
    converted to strings and a provider that answers with a success
    status and a JSON body other than [null], is answered 200 with
    [{message: "Email sent to <buyerEmail>", resendId: <id of the
    answer>}]; the only thing done after the template stage is the one
    POST to the provider, carrying the bearer token, the buyer email as
    recipient, the item name in the subject and the personalised
    template. *)
Theorem email_sent (rq : req) (st st1 : state) (payload : value)
        (tmpl itemText emailText key t : string) (r : http_response)
        (resendResult : value) :
  payment_completed JSON_parse rq payload ->
  truthy (buyerEmail_of payload) = true ->
  get_template st = (Return tmpl, st1) ->
  to_string (itemName_of payload) = Some itemText ->
  to_string (buyerEmail_of payload) = Some emailText ->
  present (RESEND_API_KEY st1) = Some key ->
  network (trace st1)
    (POST RESEND_URL ("Bearer " ++ key)
       (Email RESEND_EMAIL (buyerEmail_of payload)
          ("Your " ++ itemText ++ " is ready!")
          (Subst.render tmpl itemText emailText)))
  = Resolved r ->
  ok r = true ->
  content r = Some t ->
  JSON_parse t = Some resendResult ->
  nullish resendResult = false ->
  handler rq st
  = (Return (Res 200 (Obj [("message", Str ("Email sent to " ++ emailText));
                           ("resendId", member resendResult "id")])),
     after st1
       (Fetch (POST RESEND_URL ("Bearer " ++ key)
                 (Email RESEND_EMAIL (buyerEmail_of payload)
                    ("Your " ++ itemText ++ " is ready!")
                    (Subst.render tmpl itemText emailText))))).
Proof.
  intros Hp Hb Hg Hi He Hk Hn Hok Hc Hj Hnull.
  rewrite (handler_dispatching rq st st1 payload tmpl _ _ Hp Hb Hg Hi He).
  unfold try_catch. rewrite dispatch_outcomes, Hk, Hi.
  unfold resend_request. cbv zeta.
  now rewrite Hn, Hok, Hc, Hj, He, Hnull.
Qed.

(** X3.  When the dispatch stage is reached (template, credential and
    converted order values are there) and the provider answers with a
    success status and the JSON text [null], reading [resendResult.id]
    throws outside the inner [try]: the request to the provider has been
    made, yet the caller is answered 500 with
    [{error: "Internal Server Error"}] by the catch-all. *)
Theorem null_provider_answer_internal_error (rq : req) (st st1 : state)
        (payload : value) (tmpl itemText emailText key t : string)
        (r : http_response) (resendResult : value) :
  payment_completed JSON_parse rq payload ->
  truthy (buyerEmail_of payload) = true ->
  get_template st = (Return tmpl, st1) ->
  to_string (itemName_of payload) = Some itemText ->
  to_string (buyerEmail_of payload) = Some emailText ->
  present (RESEND_API_KEY st1) = Some key ->
  network (trace st1)
    (resend_request key itemText (buyerEmail_of payload)
       (Subst.render tmpl itemText emailText))
  = Resolved r ->
  ok r = true ->
  content r = Some t ->
  JSON_parse t = Some resendResult ->
  nullish resendResult = true ->
  handler rq st
  = (Return (Res 500 (error_body "Internal Server Error")),
     after (after st1
              (Fetch (resend_request key itemText (buyerEmail_of payload)
                        (Subst.render tmpl itemText emailText))))
       (ConsoleError [Text "Webhook error:"; Thrown TypeError]))
  /\ dispatches (snd (handler rq st)) = S (dispatches st1).
Proof.
  intros Hp Hb Hg Hi He Hk Hn Hok Hc Hj Hnull.
  rewrite (handler_dispatching rq st st1 payload tmpl _ _ Hp Hb Hg Hi He).
  unfold try_catch. rewrite dispatch_outcomes, Hk, Hi. cbv zeta.
  rewrite Hn, Hok, Hc, Hj, He, Hnull. split; [reflexivity|]. count_events.
Qed.

(** X4.  A POST whose decoded body is [null] or [undefined] (no body at
    all, or the JSON text [null]) makes the read of [event_type] throw:
    the catch-all logs the error and answers 500 with
    [{error: "Internal Server Error"}]; no network call is made. *)
Theorem null_payload_internal_error (rq : req) (st : state) (payload : value) :
  post_of JSON_parse rq payload ->
  nullish payload = true ->
  handler rq st
  = (Return (Res 500 (error_body "Internal Server Error")),
     after st (ConsoleError [Text "Webhook error:"; Thrown TypeError]))
  /\ network_calls (snd (handler rq st)) = network_calls st.
Proof.
  intros [Hm Hd] Hn.
  assert (E : handler rq st
              = (Return (Res 500 (error_body "Internal Server Error")),
                 after st (ConsoleError [Text "Webhook error:"; Thrown TypeError]))).
  { unfold paypalWebhookHandler, try_catch.
    rewrite Hm, strict_neq_str_same, Hd. unfold bind, get. now rewrite Hn. }
  rewrite E. split; [reflexivity|]. count_events.
Qed.

(** The handler always answers, with one of four status codes. *)
Lemma handler_answers (rq : req) (st : state) :
  exists r,
    fst (handler rq st) = Return r
    /\ (statusCode r = 200 \/ statusCode r = 400
        \/ statusCode r = 405 \/ statusCode r = 500)%Z.
Proof.
  destruct (handler_cases rq st)
    as [[_ E] | [(_ & _ & E) | [(p & _ & _ & E) | [(p & _ & _ & _ & E)
       | [(p & _ & _ & E) | (p & _ & _ & E)]]]]];
    rewrite E; try (eexists; split; [reflexivity | simpl; tauto]).
  unfold try_catch.
  destruct (render_and_dispatch _ _ _ _ st) as [[r|e] st'] eqn:R.
  - exists r. split; [reflexivity|].
    destruct (render_and_dispatch_status _ _ _ _ _ _ _ R) as [->| ->]; tauto.
  - eexists; split; [reflexivity | simpl; tauto].
Qed.

(** X5.  Whatever the request and whatever the collaborators do, the
    handler answers (no exception leaves it), with status 200, 400, 405
    or 500. *)
Theorem handler_status_codes (rq : req) (st : state) :
  exists r,
    fst (handler rq st) = Return r
    /\ (statusCode r = 200 \/ statusCode r = 400
        \/ statusCode r = 405 \/ statusCode r = 500)%Z.
Proof. apply handler_answers. Qed.

(** X6.  When the handler reaches the dispatch stage (template,
    credential and converted order values are there) and the provider's
    answer is lost (the transport fails, the body cannot be read, or a
    success status carries a body that is not JSON), the error is caught
    by the inner [catch]: it is logged and the caller is answered 500
    with [{error: "Failed to send email"}]. *)
Theorem lost_answer_failed_to_send (rq : req) (st st1 : state)
        (payload : value) (tmpl itemText emailText key : string) :
  payment_completed JSON_parse rq payload ->
  truthy (buyerEmail_of payload) = true ->
  get_template st = (Return tmpl, st1) ->
  to_string (itemName_of payload) = Some itemText ->
  to_string (buyerEmail_of payload) = Some emailText ->
  present (RESEND_API_KEY st1) = Some key ->
  Observe.answer_lost JSON_parse
    (network (trace st1)
       (resend_request key itemText (buyerEmail_of payload)
          (Subst.render tmpl itemText emailText)))
  = true ->
  exists e,
    (e = FetchError \/ e = SyntaxError)
    /\ handler rq st
       = (Return (Res 500 (error_body "Failed to send email")),
          after (after st1
                   (Fetch (resend_request key itemText (buyerEmail_of payload)
                             (Subst.render tmpl itemText emailText))))
            (ConsoleError [Text "Failed to send email via Resend:"; Thrown e])).
Proof.
  intros Hp Hb Hg Hi He Hk Hlost.
  rewrite (handler_dispatching rq st st1 payload tmpl _ _ Hp Hb Hg Hi He).
  unfold try_catch. rewrite dispatch_outcomes, Hk, Hi. cbv zeta.
  unfold Observe.answer_lost in Hlost.
  destruct (network _ _) as [|r]; [exists FetchError; auto|].
  destruct (content r) as [t|]; [| exists FetchError; destruct (ok r); auto].
  destruct (ok r); [| discriminate].
  destruct (JSON_parse t); [discriminate|]. exists SyntaxError; auto.
Qed.

(** X7.  One request only adds to the trace: at most one fetch of the
    template and at most one call to the email provider, to no other
    address than the two the handler knows, and it leaves the credential
    of the process as it is. *)
Theorem handler_footprint (rq : req) (st : state) :
  exists evs,
    trace (snd (handler rq st)) = (trace st ++ evs)%list
    /\ RESEND_API_KEY (snd (handler rq st)) = RESEND_API_KEY st
    /\ List.length (filter is_template_fetch evs) <= 1
    /\ List.length (filter is_dispatch evs) <= 1
    /\ forallb Observe.known_endpoint evs = true.
Proof.
  unfold paypalWebhookHandler, render_and_dispatch, getEmailTemplate,
    dispatch, fetch, json, resend_request, after. run.
  repeat (branch; run);
    repeat rewrite <- app_assoc; simpl;
    try (exists []; rewrite app_nil_r; repeat split; simpl; auto; fail);
    try (eexists; repeat split; simpl; auto; fail).
Qed.

(** X8.  The email provider is called only for a POST that carries a
    payment-completed event with a buyer email, after the template has
    been obtained and the two order values have been converted to
    strings, and with the credential configured; the call then made is
    addressed to that buyer, with the personalised template as body. *)
Theorem dispatch_only_when_validated (rq : req) (st : state) :
  dispatches (snd (handler rq st)) <> dispatches st ->
  exists payload tmpl st1 key itemText emailText,
    payment_completed JSON_parse rq payload
    /\ truthy (buyerEmail_of payload) = true
    /\ get_template st = (Return tmpl, st1)
    /\ present (RESEND_API_KEY st1) = Some key
    /\ to_string (itemName_of payload) = Some itemText
    /\ to_string (buyerEmail_of payload) = Some emailText
    /\ Subst.personalize tmpl (itemName_of payload) (buyerEmail_of payload)
       = Some (Subst.render tmpl itemText emailText)
    /\ In (Fetch (POST RESEND_URL ("Bearer " ++ key)
                    (Email RESEND_EMAIL (buyerEmail_of payload)
                       ("Your " ++ itemText ++ " is ready!")
                       (Subst.render tmpl itemText emailText))))
          (trace (snd (handler rq st))).
Proof.
  intros Hd.
  destruct (handler_cases rq st)
    as [[_ E] | [(_ & _ & E) | [(p & _ & _ & E) | [(p & _ & _ & _ & E)
       | [(p & _ & _ & E) | (p & Hp & Hb & E)]]]]];
    try (rewrite E in Hd; simpl in Hd; exfalso; apply Hd; count_events; fail).
  destruct (get_template st) as [[tmpl|e] st1] eqn:Hg.
  - pose proof (getEmailTemplate_frame st) as [Hfr _]. rewrite Hg in Hfr.
    simpl in Hfr.
    destruct (to_string (itemName_of p)) as [itemText|] eqn:Hi.
    2:{ exfalso. apply Hd.
        rewrite (handler_substitution_throws JSON_parse network rq st st1 p tmpl
                   Hp Hb Hg (personalize_none _ _ _ (or_introl Hi))).
        simpl. rewrite <- Hfr. count_events. }
    destruct (to_string (buyerEmail_of p)) as [emailText|] eqn:He.
    2:{ exfalso. apply Hd.
        rewrite (handler_substitution_throws JSON_parse network rq st st1 p tmpl
                   Hp Hb Hg (personalize_none _ _ _ (or_intror He))).
        simpl. rewrite <- Hfr. count_events. }
    destruct (present (RESEND_API_KEY st1)) as [key|] eqn:Hk.
    + exists p, tmpl, st1, key, itemText, emailText.
      split; [exact Hp|]. split; [exact Hb|]. split; [reflexivity|].
      split; [exact Hk|]. split; [exact Hi|]. split; [exact He|].
      split; [now apply personalize_some|].
      rewrite (handler_dispatching rq st st1 p tmpl _ _ Hp Hb Hg Hi He).
      destruct (dispatch_calls_provider JSON_parse network (itemName_of p)
                  (buyerEmail_of p) (Subst.render tmpl itemText emailText)
                  key itemText st1 Hi Hk) as [rest [Ht _]].
      unfold resend_request in Ht.
      unfold try_catch. destruct (send _ _ _ st1) as [[r|e] st']; simpl in *;
        rewrite Ht; repeat (apply in_or_app; simpl; auto).
      left. apply in_or_app; simpl; auto.
    + exfalso. apply Hd.
      rewrite (handler_dispatching rq st st1 p tmpl _ _ Hp Hb Hg Hi He).
      unfold try_catch. rewrite dispatch_outcomes, Hk. simpl. exact Hfr.
  - exfalso. apply Hd. rewrite E. unfold try_catch.
    rewrite (render_and_dispatch_unavailable JSON_parse network _ _ _ _ _ Hg).
    simpl. pose proof (getEmailTemplate_frame st) as [H _]. rewrite Hg in H.
    simpl in H. rewrite <- H. count_events.
Qed.

(** X9.  The cache is written by nothing but a successful fetch: after a
    request it holds what it held before, or, when nothing usable was
    cached, the body of a success answer of the template source to this
    request's fetch. *)
Theorem cache_holds_fetched_text (rq : req) (st : state) :
  cachedEmailTemplate (snd (handler rq st)) = cachedEmailTemplate st
  \/ (present (cachedEmailTemplate st) = None
      /\ exists r t,
           network (trace st) (GET GITHUB_EMAIL_URL) = Resolved r
           /\ ok r = true
           /\ content r = Some t
           /\ cachedEmailTemplate (snd (handler rq st)) = Some t).
Proof.
  destruct (handler_cases rq st)
    as [[_ E] | [(_ & _ & E) | [(p & _ & _ & E) | [(p & _ & _ & _ & E)
       | [(p & _ & _ & E) | (p & Hp & Hb & E)]]]]];
    try (rewrite E; left; reflexivity).
  assert (Hsend : forall tmpl st1,
             get_template st = (Return tmpl, st1) ->
             cachedEmailTemplate (snd (handler rq st)) = cachedEmailTemplate st1).
  { intros tmpl st1 Hg. rewrite E. unfold try_catch.
    rewrite (render_and_dispatch_available JSON_parse network _ _ _ _ _ Hg).
    destruct (after_template_frame JSON_parse network (itemName_of p)
                (buyerEmail_of p) tmpl st1) as [Hc _].
    destruct (bind _ _ st1) as [[r|e] st']; simpl in *; assumption. }
  destruct (present (cachedEmailTemplate st)) as [t|] eqn:Hc.
  - left. apply (Hsend t st). now apply getEmailTemplate_cached.
  - pose proof (getEmailTemplate_uncached network st Hc) as Hg.
    destruct (network (trace st) (GET GITHUB_EMAIL_URL)) as [|r] eqn:Hn.
    + left. rewrite E. unfold try_catch.
      now rewrite (render_and_dispatch_unavailable JSON_parse network _ _ _ _ _ Hg).
    + destruct (ok r) eqn:Hok.
      * destruct (content r) as [t|] eqn:Ht.
        -- right. split; [reflexivity|]. exists r, t. repeat split; try assumption.
           now rewrite (Hsend _ _ Hg).
        -- left. rewrite E. unfold try_catch.
           now rewrite (render_and_dispatch_unavailable JSON_parse network
                          _ _ _ _ _ Hg).
      * left. rewrite E. unfold try_catch.
        now rewrite (render_and_dispatch_unavailable JSON_parse network
                       _ _ _ _ _ Hg).
Qed.

(** X20.  An order value that cannot be converted to a string (an
    object with a [toString] member of its own, alone or in an array)
    makes the substitution throw, outside the two inner [try] blocks: the
    template has been obtained, the credential is not looked at, nothing
    is sent; the catch-all logs the [TypeError] and answers 500 with
    [{error: "Internal Server Error"}]. *)
Theorem unconvertible_value_internal_error (rq : req) (st st1 : state)
        (payload : value) (tmpl : string) :
  payment_completed JSON_parse rq payload ->
  truthy (buyerEmail_of payload) = true ->
  get_template st = (Return tmpl, st1) ->
  to_string (itemName_of payload) = None
  \/ to_string (buyerEmail_of payload) = None ->
  handler rq st
  = (Return (Res 500 (error_body "Internal Server Error")),
     after st1 (ConsoleError [Text "Webhook error:"; Thrown TypeError]))
  /\ dispatches (snd (handler rq st)) = dispatches st.
Proof.
  intros Hp Hb Hg Hnone.
  rewrite (handler_substitution_throws JSON_parse network rq st st1 payload tmpl
             Hp Hb Hg (personalize_none _ _ _ Hnone)).
  split; [reflexivity|]. simpl.
  pose proof (getEmailTemplate_frame st) as [Hd _]. rewrite Hg in Hd.
  simpl in Hd. rewrite <- Hd. count_events.
Qed.

End Outcomes.

(** X10.  The item name is never falsy: it is a truthy value read off
    the event or the default.  In particular a [purchase_units] that is
    neither an array nor an object (a string, a number, a boolean) has no
    first unit with [items], and gives the default. *)
Theorem itemName_never_falsy (resource : value) :
  truthy (extract_itemName resource) = true
  /\ (extract_itemName resource = Str "Digital Product"
      \/ extract_itemName resource = opt_chain resource itemName_path)
  /\ (forall units,
        member resource "purchase_units" = units ->
        (forall l, units <> Arr l) ->
        (forall props, units <> Obj props) ->
        extract_itemName resource = Str "Digital Product").
Proof.
  split; [| split].
  - unfold extract_itemName, or_else.
    now destruct (truthy (opt_chain resource itemName_path)) eqn:H.
  - unfold extract_itemName, or_else.
    destruct (truthy (opt_chain resource itemName_path)); auto.
  - intros units Hu Harr Hobj. unfold extract_itemName, or_else.
    replace (opt_chain resource itemName_path)
      with (opt_chain (opt_read resource (Member "purchase_units"))
              [Item0; Member "items"; Item0; Member "name"]) by reflexivity.
    unfold opt_read. destruct (nullish resource); [reflexivity|].
    simpl read. rewrite Hu.
    destruct units as [| |b|n|s|l|props]; try reflexivity.
    + destruct s as [|c s]; reflexivity.
    + now elim (Harr l).
    + now elim (Hobj props).
Qed.

(* ===================================================================== *)
(** ** The Lambda entry point                                             *)
(* ===================================================================== *)

Section LambdaWrapper.

Variable JSON_stringify : value -> string.
Variable JSON_parse : string -> option value.
Variable network : list event -> request -> fetch_result.

(** X11.  The Lambda entry point reads [event.httpMethod] and
    [event.body] outside any [try]: for an event that is [null] or
    [undefined] it rejects with a [TypeError], before anything is done.
    For every other event it resolves: its [statusCode] is the handler's
    (200, 400, 405 or 500), its body the serialisation of the handler's
    answer, its only header [Content-Type: application/json], and it does
    nothing beyond what the handler does.  An event whose [httpMethod] is
    not POST (also one with no [httpMethod]) gets 405 and leaves the
    process as it was. *)
Theorem lambda_entry_point (event : value) (st : state) :
  (nullish event = true ->
   Lambda.handler JSON_stringify JSON_parse network event st
   = (Throw TypeError, st))
  /\ (nullish event = false ->
      exists r,
        fst (paypalWebhookHandler JSON_parse network
               (Req (member event "httpMethod") (member event "body")) st)
        = Return r
        /\ Lambda.handler JSON_stringify JSON_parse network event st
           = (Return (Lambda.LambdaResult (statusCode r)
                        [("Content-Type", "application/json")]
                        (JSON_stringify (data r))),
              snd (paypalWebhookHandler JSON_parse network
                     (Req (member event "httpMethod") (member event "body")) st))
        /\ (statusCode r = 200 \/ statusCode r = 400
            \/ statusCode r = 405 \/ statusCode r = 500)%Z)
  /\ (nullish event = false ->
      member event "httpMethod" <> Str "POST" ->
      Lambda.handler JSON_stringify JSON_parse network event st
      = (Return (Lambda.LambdaResult 405
                   [("Content-Type", "application/json")]
                   (JSON_stringify (error_body "Method Not Allowed"))),
         st)).
Proof.
  split; [| split].
  - intros Hn. unfold Lambda.handler, bind, get. now rewrite Hn.
  - intros Hn.
    destruct (handler_answers JSON_parse network
                (Req (member event "httpMethod") (member event "body")) st)
      as [r [Hr Hs]].
    exists r. split; [exact Hr|]. split; [| exact Hs].
    unfold Lambda.handler, bind, get. rewrite Hn. unfold ret.
    destruct (paypalWebhookHandler _ _ _ st) as [[r'|e] st']; simpl in *.
    + now inversion Hr.
    + discriminate.
  - intros Hn Hm. unfold Lambda.handler, bind, get. rewrite Hn.
    unfold ret, paypalWebhookHandler, try_catch.
    cbn [method Webhook.body].
    now rewrite (strict_neq_str_other _ _ Hm).
Qed.

End LambdaWrapper.

(* ===================================================================== *)
(** ** Properties of the superseded variants                              *)
(* ===================================================================== *)

Section SupersededVariants.

Variable JSON_parse : string -> option value.
Variable network : list event -> request -> fetch_result.

Local Notation "'pg_first'" :=
  (Superseded.pg_first_paypalWebhookHandler JSON_parse network).
Local Notation "'part_000'" := (Superseded.part_000_handler JSON_parse network).
Local Notation "'part_001'" :=
  (Superseded.part_001_paypalWebhookHandler JSON_parse network).

(** Where the parse is the bare [JSON.parse], a body that decodes is
    decoded and nothing else happens. *)
Lemma bare_parse_decoded (rq : req) (st : state) (payload : value) :
  decode JSON_parse (body rq) = Some payload ->
  match body rq with
  | Str s => Superseded.parse_or_throw JSON_parse s
  | b => ret b
  end st = (Return payload, st).
Proof.
  unfold decode, Superseded.parse_or_throw.
  destruct (body rq); try (now intros [= <-]).
  intros H. now rewrite H.
Qed.

(** X12.  [pg.js], first module: a POST whose body is a string that
    [JSON.parse] rejects is not answered 400; the [SyntaxError] reaches
    the catch-all, which logs it and answers 500 with
    [{error: "Internal Server Error"}]. *)
Theorem pg_first_malformed_body_internal_error (rq : req) (st : state)
        (s : string) :
  method rq = Str "POST" ->
  body rq = Str s ->
  JSON_parse s = None ->
  pg_first rq st
  = (Return (Res 500 (error_body "Internal Server Error")),
     after st (ConsoleError [Text "Webhook error:"; Thrown SyntaxError])).
Proof.
  intros Hm Hb Hp. unfold Superseded.pg_first_paypalWebhookHandler, try_catch.
  rewrite Hm, strict_neq_str_same, Hb. unfold bind at 1.
  unfold Superseded.parse_or_throw. now rewrite Hp.
Qed.

Lemma pg_first_template_stage (rq : req) (st : state) (payload : value) :
  payment_completed JSON_parse rq payload ->
  truthy (buyerEmail_of payload) = true ->
  exists rest,
    snd (pg_first rq st)
    = State (cachedEmailTemplate st) (RESEND_API_KEY st)
        (trace st ++ Fetch (GET GITHUB_EMAIL_URL) :: rest).
Proof.
  unfold buyerEmail_of. intros [[Hm Hd] He] Hb.
  assert (Hn : nullish payload = false)
    by (apply (member_defined _ _ _ He); discriminate).
  unfold Superseded.pg_first_paypalWebhookHandler.
  rewrite Hm, strict_neq_str_same.
  unfold try_catch at 1, bind at 1.
  rewrite (bare_parse_decoded rq st payload Hd).
  unfold get. rewrite Hn. unfold bind at 1, ret at 1. rewrite He.
  unfold PAYMENT_COMPLETED at 1. rewrite strict_neq_str_same.
  unfold bind at 1, ret at 1. rewrite Hb.
  unfold fetch, json, resend_request, Superseded.success, Superseded.catch_all,
    after. run.
  repeat (branch; run); unfold after; simpl;
    repeat rewrite <- app_assoc; simpl; eexists; reflexivity.
Qed.

(** X13.  [pg.js], first module, keeps no template: every
    payment-completed event with a buyer email makes a fetch of the
    template, whatever the process holds, and the request leaves
    [cachedEmailTemplate] alone. *)
Theorem pg_first_fetches_every_time (rq : req) (st : state) (payload : value) :
  payment_completed JSON_parse rq payload ->
  truthy (buyerEmail_of payload) = true ->
  (exists rest,
      trace (snd (pg_first rq st))
      = (trace st ++ Fetch (GET GITHUB_EMAIL_URL) :: rest)%list)
  /\ cachedEmailTemplate (snd (pg_first rq st)) = cachedEmailTemplate st.
Proof.
  intros Hp Hb.
  destruct (pg_first_template_stage rq st payload Hp Hb) as [rest E].
  rewrite E. split; [now exists rest | reflexivity].
Qed.

(** X14.  The first unnamed file never looks at the provider's status
    (nor at the credential): once the template is there and the order
    values are converted, whatever status the provider answers with, as
    long as its body is JSON other than [null], the caller is told 200
    "Email sent", with whatever [id] the body holds. *)
Theorem part_000_provider_status_ignored (rq : req) (st : state)
        (payload : value) (r0 r : http_response)
        (tmpl itemText emailText t : string) (result : value) :
  payment_completed JSON_parse rq payload ->
  truthy (buyerEmail_of payload) = true ->
  network (trace st) (GET GITHUB_EMAIL_URL) = Resolved r0 ->
  ok r0 = true ->
  content r0 = Some tmpl ->
  to_string (itemName_of payload) = Some itemText ->
  to_string (buyerEmail_of payload) = Some emailText ->
  network (trace (after st (Fetch (GET GITHUB_EMAIL_URL))))
    (Superseded.resend_request_unchecked (RESEND_API_KEY st)
       itemText (buyerEmail_of payload)
       (Subst.render tmpl itemText emailText))
  = Resolved r ->
  content r = Some t ->
  JSON_parse t = Some result ->
  nullish result = false ->
  fst (part_000 rq st)
  = Return (Res 200 (Obj [("message", Str ("Email sent to " ++ emailText));
                          ("resendId", member result "id")])).
Proof.
  unfold buyerEmail_of, itemName_of.
  intros [[Hm Hd] He] Hb Hn0 Hok0 Hc0 Hi Hbe Hn1 Hc1 Hj Hnull.
  assert (Hn : nullish payload = false)
    by (apply (member_defined _ _ _ He); discriminate).
  unfold Superseded.part_000_handler.
  rewrite Hm, strict_neq_str_same.
  unfold try_catch at 1, bind at 1.
  rewrite (bare_parse_decoded rq st payload Hd).
  unfold get. rewrite Hn. unfold bind at 1, ret at 1. rewrite He.
  unfold PAYMENT_COMPLETED at 1. rewrite strict_neq_str_same.
  unfold bind at 1, ret at 1. rewrite Hb.
  unfold fetch, json, Superseded.success. mstep. cbv beta iota delta [negb].
  rewrite Hn0. cbv beta iota. rewrite Hok0. cbv beta iota. rewrite Hc0.
  cbv beta iota. rewrite (personalize_some tmpl _ _ _ _ Hi Hbe).
  cbv beta iota. rewrite Hi. cbv beta iota. unfold after in *.
  cbn [trace RESEND_API_KEY cachedEmailTemplate] in *.
  rewrite Hn1. cbv beta iota. rewrite Hc1. cbv beta iota.
  rewrite Hj. cbv beta iota. rewrite Hbe. cbv beta iota. now rewrite Hnull.
Qed.

(** The second unnamed file past validation: template, substitution,
    subject, [sendEmail], answer, all under the one catch-all. *)
Lemma part_001_validated (rq : req) (st : state) (payload : value) :
  payment_completed JSON_parse rq payload ->
  truthy (buyerEmail_of payload) = true ->
  part_001 rq st
  = try_catch
      (bind (Superseded.part_001_getEmailTemplate network)
         (fun emailTemplate =>
            bind (replace_markers emailTemplate (itemName_of payload)
                    (buyerEmail_of payload))
              (fun personalizedEmail =>
                 bind (ToString (itemName_of payload))
                   (fun itemText =>
                      bind (Superseded.part_001_sendEmail JSON_parse network
                              (buyerEmail_of payload)
                              ("Your " ++ itemText ++ " is ready!")
                              personalizedEmail)
                        (fun resendResult =>
                           Superseded.success (buyerEmail_of payload)
                             (get resendResult "id"))))))
      (Superseded.catch_all) st.
Proof.
  unfold buyerEmail_of, itemName_of. intros [[Hm Hd] He] Hb.
  assert (Hn : nullish payload = false)
    by (apply (member_defined _ _ _ He); discriminate).
  unfold Superseded.part_001_paypalWebhookHandler, try_catch.
  rewrite Hm, strict_neq_str_same, Hd.
  unfold bind at 1, get. rewrite Hn. unfold ret at 1.
  rewrite He. unfold PAYMENT_COMPLETED at 1. rewrite strict_neq_str_same.
  unfold bind at 1. unfold ret at 1. now rewrite Hb.
Qed.

(** X16.  The second unnamed file has no [catch] of its own around the
    template, the substitution and the dispatch: a failing template
    fetch, an order value that cannot be converted to a string, a missing
    credential and a refusal by the provider all end in the catch-all,
    500 with [{error: "Internal Server Error"}]; without converted values
    or without credential the provider is not called. *)
Theorem part_001_failures_reach_catch_all (rq : req) (st : state)
        (payload : value) :
  payment_completed JSON_parse rq payload ->
  truthy (buyerEmail_of payload) = true ->
  (forall e st1,
      getEmailTemplate network st = (Throw e, st1) ->
      part_001 rq st
      = (Return (Res 500 (error_body "Internal Server Error")),
         after st1 (ConsoleError [Text "Webhook error:"; Thrown e])))
  /\ (forall tmpl st1,
        getEmailTemplate network st = (Return tmpl, st1) ->
        Subst.personalize tmpl (itemName_of payload) (buyerEmail_of payload)
        = None ->
        part_001 rq st
        = (Return (Res 500 (error_body "Internal Server Error")),
           after st1 (ConsoleError [Text "Webhook error:"; Thrown TypeError])))
  /\ (forall tmpl st1 itemText emailText,
        getEmailTemplate network st = (Return tmpl, st1) ->
        to_string (itemName_of payload) = Some itemText ->
        to_string (buyerEmail_of payload) = Some emailText ->
        present (RESEND_API_KEY st1) = None ->
        part_001 rq st
        = (Return (Res 500 (error_body "Internal Server Error")),
           after st1
             (ConsoleError [Text "Webhook error:";
                            Thrown (Error "Resend API key not configured")])))
  /\ (forall tmpl st1 itemText emailText key r,
        getEmailTemplate network st = (Return tmpl, st1) ->
        to_string (itemName_of payload) = Some itemText ->
        to_string (buyerEmail_of payload) = Some emailText ->
        present (RESEND_API_KEY st1) = Some key ->
        network (trace st1)
          (resend_request key itemText (buyerEmail_of payload)
             (Subst.render tmpl itemText emailText))
        = Resolved r ->
        ok r = false ->
        fst (part_001 rq st)
        = Return (Res 500 (error_body "Internal Server Error"))).
Proof.
  intros Hp Hb. rewrite (part_001_validated rq st payload Hp Hb).
  unfold Superseded.part_001_getEmailTemplate.
  split; [| split; [| split]].
  - intros e st1 Hg. unfold try_catch, bind at 1. now rewrite Hg.
  - intros tmpl st1 Hg Hnone. unfold try_catch, bind at 1. rewrite Hg.
    unfold bind at 1, replace_markers. now rewrite Hnone.
  - intros tmpl st1 itemText emailText Hg Hi He Hk.
    unfold try_catch, bind at 1. rewrite Hg.
    unfold bind at 1, replace_markers.
    rewrite (personalize_some tmpl _ _ _ _ Hi He).
    unfold ret at 1, bind at 1, ToString. rewrite Hi.
    unfold ret at 1, bind at 1, Superseded.part_001_sendEmail, bind at 1,
      read_env_key.
    now rewrite Hk.
  - intros tmpl st1 itemText emailText key r Hg Hi He Hk Hnet Hok.
    unfold try_catch, bind at 1. rewrite Hg.
    unfold bind at 1, replace_markers.
    rewrite (personalize_some tmpl _ _ _ _ Hi He).
    unfold ret at 1, bind at 1, ToString. rewrite Hi.
    unfold ret at 1, bind at 1, Superseded.part_001_sendEmail, bind at 1,
      read_env_key.
    rewrite Hk. unfold resend_request in Hnet. unfold fetch. mstep.
    rewrite Hnet, Hok. simpl. now destruct (content r).
Qed.

End SupersededVariants.

(** X18.  What the template provider returns is what the cache holds
    afterwards, and an invocation that throws leaves the cache as it
    was. *)
Theorem getEmailTemplate_result_is_cached (network : list event -> request -> fetch_result)
        (st st1 : state) (out : outcome string) :
  getEmailTemplate network st = (out, st1) ->
  match out with
  | Return t => cachedEmailTemplate st1 = Some t
  | Throw _ => cachedEmailTemplate st1 = cachedEmailTemplate st
  end.
Proof.
  destruct (present (cachedEmailTemplate st)) as [t|] eqn:H.
  - rewrite (getEmailTemplate_cached network st t H). intros [= <- <-].
    now apply present_some in H.
  - rewrite (getEmailTemplate_uncached network st H).
    destruct (network _ _) as [|r]; [| destruct (ok r); [destruct (content r) |]];
      now intros [= <- <-].
Qed.

(** X19.  A template without any brace holds no marker: it is sent as it
    is, whatever the item name and the buyer email are (dollar signs
    included), as long as they can be converted to strings; where one
    cannot, [replace] throws though nothing is to be replaced. *)
Theorem personalize_without_braces (emailTemplate : string)
        (itemName buyerEmail : value) :
  free_of "{" emailTemplate = true ->
  match to_string itemName, to_string buyerEmail with
  | Some _, Some _ =>
      personalize emailTemplate itemName buyerEmail = Some emailTemplate
  | _, _ => personalize emailTemplate itemName buyerEmail = None
  end.
Proof.
  intros H. unfold personalize.
  destruct (to_string itemName) as [itemText|]; [| reflexivity].
  destruct (to_string buyerEmail) as [emailText|]; [| reflexivity].
  f_equal. apply render_settled; now apply free_of_occurs.
Qed.

(* ===================================================================== *)
(** ** The further properties at concrete requests                        *)
(* ===================================================================== *)

Lemma missing_credential_rejected_witness :
  paypalWebhookHandler Scenario.parse Scenario.all_up
    (Scenario.post Scenario.paid_event) (fresh None)
  = (Return (Res 500 (error_body "Resend API key not configured")),
     State (Some Scenario.template) None [Fetch (GET GITHUB_EMAIL_URL)]).
Proof.
  apply (missing_credential_rejected Scenario.parse Scenario.all_up
           (Scenario.post Scenario.paid_event) (fresh None)
           (State (Some Scenario.template) None [Fetch (GET GITHUB_EMAIL_URL)])
           Scenario.paid_event Scenario.template "E-book" "buyer@x.com");
    try reflexivity.
  repeat split; reflexivity.
Defined.

Lemma email_sent_witness :
  fst (paypalWebhookHandler Scenario.parse Scenario.all_up
         (Scenario.post Scenario.paid_event) (fresh Scenario.key))
  = Return (Res 200 (Obj [("message", Str "Email sent to buyer@x.com");
                          ("resendId", Str "em_123")])).
Proof.
  rewrite (email_sent Scenario.parse Scenario.all_up
             (Scenario.post Scenario.paid_event) (fresh Scenario.key)
             (State (Some Scenario.template) Scenario.key
                [Fetch (GET GITHUB_EMAIL_URL)])
             Scenario.paid_event Scenario.template "E-book" "buyer@x.com"
             "re_test_key" Scenario.provider_answer
             (HttpResponse 200 (Some Scenario.provider_answer))
             (Obj [("id", Str "em_123")]));
    try reflexivity.
  repeat split; reflexivity.
Defined.

Lemma null_provider_answer_internal_error_witness :
  fst (paypalWebhookHandler Scenario.parse Scenario.provider_null
         (Scenario.post Scenario.paid_event) (fresh Scenario.key))
  = Return (Res 500 (error_body "Internal Server Error"))
  /\ dispatches
       (snd (paypalWebhookHandler Scenario.parse Scenario.provider_null
               (Scenario.post Scenario.paid_event) (fresh Scenario.key)))
     = 1.
Proof.
  destruct (null_provider_answer_internal_error Scenario.parse Scenario.provider_null
              (Scenario.post Scenario.paid_event) (fresh Scenario.key)
              (State (Some Scenario.template) Scenario.key
                 [Fetch (GET GITHUB_EMAIL_URL)])
              Scenario.paid_event Scenario.template "E-book" "buyer@x.com"
              "re_test_key" "null"
              (HttpResponse 200 (Some "null")) Null) as [E D];
    try reflexivity.
  - repeat split; reflexivity.
  - rewrite E. split; reflexivity.
Defined.

Lemma null_payload_internal_error_witness :
  fst (paypalWebhookHandler Scenario.parse Scenario.all_up
         (Scenario.post (Str "null")) (fresh Scenario.key))
  = Return (Res 500 (error_body "Internal Server Error")).
Proof.
  destruct (null_payload_internal_error Scenario.parse Scenario.all_up
              (Scenario.post (Str "null")) (fresh Scenario.key) Null) as [E _].
  - split; reflexivity.
  - reflexivity.
  - now rewrite E.
Defined.

Lemma lost_answer_failed_to_send_witness :
  fst (paypalWebhookHandler Scenario.parse Scenario.provider_unreachable
         (Scenario.post Scenario.paid_event) (fresh Scenario.key))
  = Return (Res 500 (error_body "Failed to send email")).
Proof.
  destruct (lost_answer_failed_to_send Scenario.parse Scenario.provider_unreachable
              (Scenario.post Scenario.paid_event) (fresh Scenario.key)
              (State (Some Scenario.template) Scenario.key
                 [Fetch (GET GITHUB_EMAIL_URL)])
              Scenario.paid_event Scenario.template "E-book" "buyer@x.com"
              "re_test_key")
    as [e [_ E]].
  - repeat split; reflexivity.
  - reflexivity.
  - reflexivity.
  - reflexivity.
  - reflexivity.
  - reflexivity.
  - reflexivity.
  - now rewrite E.
Defined.

Lemma dispatch_only_when_validated_witness :
  exists payload tmpl st1 key itemText emailText,
    payment_completed Scenario.parse (Scenario.post Scenario.paid_event) payload
    /\ truthy (buyerEmail_of payload) = true
    /\ getEmailTemplate Scenario.all_up (fresh Scenario.key) = (Return tmpl, st1)
    /\ present (RESEND_API_KEY st1) = Some key
    /\ to_string (itemName_of payload) = Some itemText
    /\ to_string (buyerEmail_of payload) = Some emailText
    /\ personalize tmpl (itemName_of payload) (buyerEmail_of payload)
       = Some (render tmpl itemText emailText)
    /\ In (Fetch (POST RESEND_URL ("Bearer " ++ key)
                    (Email RESEND_EMAIL (buyerEmail_of payload)
                       ("Your " ++ itemText ++ " is ready!")
                       (render tmpl itemText emailText))))
          (trace (snd (paypalWebhookHandler Scenario.parse Scenario.all_up
                         (Scenario.post Scenario.paid_event)
                         (fresh Scenario.key)))).
Proof.
  apply (dispatch_only_when_validated Scenario.parse Scenario.all_up
           (Scenario.post Scenario.paid_event) (fresh Scenario.key)).
  intros H. vm_compute in H. discriminate H.
Defined.

Lemma pg_first_malformed_body_internal_error_witness :
  fst (Superseded.pg_first_paypalWebhookHandler Scenario.parse Scenario.all_up
         (Scenario.post (Str "{oops")) (fresh Scenario.key))
  = Return (Res 500 (error_body "Internal Server Error")).
Proof.
  now rewrite (pg_first_malformed_body_internal_error Scenario.parse
                 Scenario.all_up (Scenario.post (Str "{oops"))
                 (fresh Scenario.key) "{oops" eq_refl eq_refl eq_refl).
Defined.

Lemma pg_first_fetches_every_time_witness :
  cachedEmailTemplate
    (snd (Superseded.pg_first_paypalWebhookHandler Scenario.parse Scenario.all_up
            (Scenario.post Scenario.paid_event)
            (State (Some "an older template") Scenario.key [])))
  = Some "an older template".
Proof.
  apply (pg_first_fetches_every_time Scenario.parse Scenario.all_up
           (Scenario.post Scenario.paid_event)
           (State (Some "an older template") Scenario.key [])
           Scenario.paid_event).
  - repeat split; reflexivity.
  - reflexivity.
Defined.

Lemma part_000_provider_status_ignored_witness :
  fst (Superseded.part_000_handler Scenario.parse Scenario.provider_down
         (Scenario.post Scenario.paid_event) (fresh Scenario.key))
  = Return (Res 200 (Obj [("message", Str "Email sent to buyer@x.com");
                          ("resendId", Undefined)])).
Proof.
  apply (part_000_provider_status_ignored Scenario.parse Scenario.provider_down
           (Scenario.post Scenario.paid_event) (fresh Scenario.key)
           Scenario.paid_event
           (HttpResponse 200 (Some Scenario.template))
           (HttpResponse 422 (Some Scenario.provider_refusal))
           Scenario.template "E-book" "buyer@x.com" Scenario.provider_refusal
           (Obj [("name", Str "validation_error")]));
    try reflexivity.
  repeat split; reflexivity.
Defined.

Lemma part_001_failures_reach_catch_all_witness :
  fst (Superseded.part_001_paypalWebhookHandler Scenario.parse Scenario.template_down
         (Scenario.post Scenario.paid_event) (fresh Scenario.key))
  = Return (Res 500 (error_body "Internal Server Error"))
  /\ Superseded.part_001_paypalWebhookHandler Scenario.parse Scenario.all_up
       (Scenario.post Scenario.paid_event_odd_email) (fresh None)
     = (Return (Res 500 (error_body "Internal Server Error")),
        State (Some Scenario.template) None
          [Fetch (GET GITHUB_EMAIL_URL);
           ConsoleError [Text "Webhook error:"; Thrown TypeError]])
  /\ Superseded.part_001_paypalWebhookHandler Scenario.parse Scenario.all_up
       (Scenario.post Scenario.paid_event) (fresh None)
     = (Return (Res 500 (error_body "Internal Server Error")),
        State (Some Scenario.template) None
          [Fetch (GET GITHUB_EMAIL_URL);
           ConsoleError [Text "Webhook error:";
                         Thrown (Error "Resend API key not configured")]]).
Proof.
  split; [| split].
  - destruct (part_001_failures_reach_catch_all Scenario.parse
                Scenario.template_down
                (Scenario.post Scenario.paid_event) (fresh Scenario.key)
                Scenario.paid_event) as [H _].
    + repeat split; reflexivity.
    + reflexivity.
    + now rewrite (H (Error "Failed to fetch email template: 404")
                     (State None Scenario.key [Fetch (GET GITHUB_EMAIL_URL)])
                     eq_refl).
  - destruct (part_001_failures_reach_catch_all Scenario.parse Scenario.all_up
                (Scenario.post Scenario.paid_event_odd_email) (fresh None)
                Scenario.paid_event_odd_email) as (_ & H & _).
    + repeat split; reflexivity.
    + reflexivity.
    + apply (H Scenario.template
               (State (Some Scenario.template) None
                  [Fetch (GET GITHUB_EMAIL_URL)])
               eq_refl eq_refl).
  - destruct (part_001_failures_reach_catch_all Scenario.parse Scenario.all_up
                (Scenario.post Scenario.paid_event) (fresh None)
                Scenario.paid_event) as (_ & _ & H & _).
    + repeat split; reflexivity.
    + reflexivity.
    + apply (H Scenario.template
               (State (Some Scenario.template) None
                  [Fetch (GET GITHUB_EMAIL_URL)])
               "E-book" "buyer@x.com" eq_refl eq_refl eq_refl eq_refl).
Defined.

Lemma getEmailTemplate_result_is_cached_witness :
  cachedEmailTemplate
    (State (Some Scenario.template) Scenario.key [Fetch (GET GITHUB_EMAIL_URL)])
  = Some Scenario.template.
Proof.
  apply (getEmailTemplate_result_is_cached Scenario.all_up (fresh Scenario.key)
           (State (Some Scenario.template) Scenario.key
              [Fetch (GET GITHUB_EMAIL_URL)])
           (Return Scenario.template) eq_refl).
Defined.

Lemma personalize_without_braces_witness :
  personalize "Thank you for your purchase." (Str "E-book") (Str "big$$spender@x.com")
  = Some "Thank you for your purchase."
  /\ personalize "Thank you for your purchase." (Obj [("toString", Str "x")])
       (Str "a@b.com")
     = None.
Proof.
  split.
  - apply (personalize_without_braces "Thank you for your purchase."
             (Str "E-book") (Str "big$$spender@x.com")).
    reflexivity.
  - apply (personalize_without_braces "Thank you for your purchase."
             (Obj [("toString", Str "x")]) (Str "a@b.com")).
    reflexivity.
Defined.

Lemma unconvertible_value_internal_error_witness :
  paypalWebhookHandler Scenario.parse Scenario.all_up
    (Scenario.post Scenario.paid_event_odd_email) (fresh Scenario.key)
  = (Return (Res 500 (error_body "Internal Server Error")),
     State (Some Scenario.template) Scenario.key
       [Fetch (GET GITHUB_EMAIL_URL);
        ConsoleError [Text "Webhook error:"; Thrown TypeError]]).
Proof.
  apply (unconvertible_value_internal_error Scenario.parse Scenario.all_up
           (Scenario.post Scenario.paid_event_odd_email) (fresh Scenario.key)
           (State (Some Scenario.template) Scenario.key
              [Fetch (GET GITHUB_EMAIL_URL)])
           Scenario.paid_event_odd_email Scenario.template).
  - repeat split; reflexivity.
  - reflexivity.
  - reflexivity.
  - right. reflexivity.
Defined.

Lemma lambda_entry_point_witness :
  Lambda.handler Scenario.stringify Scenario.parse Scenario.all_up
    Null (fresh Scenario.key)
  = (Throw TypeError, fresh Scenario.key)
  /\ Lambda.handler Scenario.stringify Scenario.parse Scenario.all_up
       (Obj [("httpMethod", Str "GET")]) (fresh Scenario.key)
     = (Return (Lambda.LambdaResult 405
                  [("Content-Type", "application/json")]
                  (Scenario.stringify (error_body "Method Not Allowed"))),
        fresh Scenario.key).
Proof.
  split.
  - apply (proj1 (lambda_entry_point Scenario.stringify Scenario.parse
                    Scenario.all_up Null (fresh Scenario.key))).
    reflexivity.
  - apply (proj2 (proj2 (lambda_entry_point Scenario.stringify Scenario.parse
                           Scenario.all_up (Obj [("httpMethod", Str "GET")])
                           (fresh Scenario.key)))).
    + reflexivity.
    + discriminate.
Defined.
